(** * The GCS logging "update" command (pkg/logging/gcs/update.go)

    A shallow embedding of [UpdateCommand], [NewUpdateCommand],
    [createInput] and [Exec], together with the properties the
    specification states about them.

    The command talks to the remote API through the client interface held
    in [c.Globals.Client]; the embedding threads an explicit world (the
    client's state, the log of the client calls made so far, and the bytes
    written to [out]) through a small state-and-error monad.  Unlike an
    exception monad the world survives a failure: a request that was sent
    stays sent when a later step returns an error. *)

From Stdlib Require Import String Ascii List ZArith NArith Bool Lia.
From Stdlib Require Import DecimalString.
Import ListNotations.

Local Open Scope list_scope.
Local Open Scope string_scope.

Set Implicit Arguments.

(** ** Go values used by the command *)

(** Go's [error] interface.  [ErrNoServiceID] is the sentinel of package
    [errors]; every other error value (those the API client builds for a
    network failure, an authentication failure, a 4xx/5xx response) is an
    [APIError] carrying its message; a client is free to return the
    sentinel too.  [FlagError] is what the flag parser reports. *)
Inductive error : Type :=
| ErrNoServiceID
| APIError (msg : string)
| FlagError (msg : string).

(** A Go [(T, error)] result, after the [err != nil] test.  The API client
    returns either an error or the decoded object (a nil error comes with a
    non-nil object), which is what the command relies on when it reads
    [gcs.ServiceID] right after the test. *)
Definition result (A : Type) : Type := (error + A)%type.

(** [common.OptionalString], [common.OptionalUint], [common.OptionalUint8]:
    a value and the bit that records whether the flag was given. *)
Record Optional (A : Type) : Type := mkOptional {
  Valid : bool;
  Value : A
}.

Definition OptionalString := Optional string.
Definition OptionalUint := Optional N.
Definition OptionalUint8 := Optional N.

(** Modelled from the spec: [common.Optional.Set], the flag action, whose
    body is not part of the sources at hand.  The wrapper is "a 'present'
    flag paired with a value, used to distinguish 'flag not given' from
    'flag given with the zero value'": the action only raises the presence
    bit, the value itself is stored by [StringVar]/[UintVar]/[Uint8Var]. *)
Definition Optional_Set {A} (o : Optional A) : Optional A :=
  {| Valid := true; Value := Value o |}.

Definition Optional_store {A} (v : A) (o : Optional A) : Optional A :=
  {| Valid := Valid o; Value := v |}.

(** ** package manifest *)
Module manifest.

Inductive Source : Type :=
| SourceUndefined
| SourceFile
| SourceFlag.

Definition Source_eqb (a b : Source) : bool :=
  match a, b with
  | SourceUndefined, SourceUndefined => true
  | SourceFile, SourceFile => true
  | SourceFlag, SourceFlag => true
  | _, _ => false
  end.

(** The manifest file as read from disk, and the values given by flag. *)
Record File : Type := mkFile { File_ServiceID : string }.
Record Flag : Type := mkFlag { Flag_ServiceID : string }.

Record Data : Type := mkData {
  file : File;
  flag : Flag
}.

(** Modelled from the spec: [manifest.Data.ServiceID], whose body is not
    part of the sources at hand.  The manifest is "a local project file
    supplying a default service ID when none is passed via flag"; the
    flag is bound to a plain string ([StringVar(&c.manifest.Flag.ServiceID)],
    no presence bit), so "passed" can only mean a non-empty string, and
    likewise for the file.  The second component says where the ID came
    from, [SourceUndefined] when neither defines one. *)
Definition ServiceID (d : Data) : string * Source :=
  if negb (Flag_ServiceID (flag d) =? EmptyString) then
    (Flag_ServiceID (flag d), SourceFlag)
  else if negb (File_ServiceID (file d) =? EmptyString) then
    (File_ServiceID (file d), SourceFile)
  else
    (EmptyString, SourceUndefined).

End manifest.

(** ** package fastly: the objects exchanged with the API client *)
Module fastly.

(** [fastly.GCS], the endpoint as the API reports it. *)
Record GCS : Type := mkGCS {
  GCS_ServiceID : string;
  GCS_Version : Z;
  GCS_Name : string;
  GCS_Bucket : string;
  GCS_User : string;
  GCS_SecretKey : string;
  GCS_Path : string;
  GCS_Period : N;
  GCS_FormatVersion : N;
  GCS_GzipLevel : N;
  GCS_Format : string;
  GCS_MessageType : string;
  GCS_ResponseCondition : string;
  GCS_TimestampFormat : string;
  GCS_Placement : string
}.

Record GetGCSInput : Type := mkGetGCSInput {
  Get_Service : string;
  Get_Name : string;
  Get_Version : Z
}.

Record UpdateGCSInput : Type := mkUpdateGCSInput {
  Service : string;
  Version : Z;
  Name : string;
  NewName : string;
  Bucket : string;
  User : string;
  SecretKey : string;
  Path : string;
  Period : N;
  FormatVersion : N;
  GzipLevel : N;
  Format : string;
  MessageType : string;
  ResponseCondition : string;
  TimestampFormat : string;
  Placement : string
}.

(** Field assignments [input.F = v] on an [UpdateGCSInput]. *)
Definition set_NewName (v : string) (i : UpdateGCSInput) : UpdateGCSInput :=
  mkUpdateGCSInput (Service i) (Version i) (Name i) v (Bucket i) (User i)
    (SecretKey i) (Path i) (Period i) (FormatVersion i) (GzipLevel i)
    (Format i) (MessageType i) (ResponseCondition i) (TimestampFormat i)
    (Placement i).

Definition set_Bucket (v : string) (i : UpdateGCSInput) : UpdateGCSInput :=
  mkUpdateGCSInput (Service i) (Version i) (Name i) (NewName i) v (User i)
    (SecretKey i) (Path i) (Period i) (FormatVersion i) (GzipLevel i)
    (Format i) (MessageType i) (ResponseCondition i) (TimestampFormat i)
    (Placement i).

Definition set_User (v : string) (i : UpdateGCSInput) : UpdateGCSInput :=
  mkUpdateGCSInput (Service i) (Version i) (Name i) (NewName i) (Bucket i) v
    (SecretKey i) (Path i) (Period i) (FormatVersion i) (GzipLevel i)
    (Format i) (MessageType i) (ResponseCondition i) (TimestampFormat i)
    (Placement i).

Definition set_SecretKey (v : string) (i : UpdateGCSInput) : UpdateGCSInput :=
  mkUpdateGCSInput (Service i) (Version i) (Name i) (NewName i) (Bucket i)
    (User i) v (Path i) (Period i) (FormatVersion i) (GzipLevel i)
    (Format i) (MessageType i) (ResponseCondition i) (TimestampFormat i)
    (Placement i).

Definition set_Path (v : string) (i : UpdateGCSInput) : UpdateGCSInput :=
  mkUpdateGCSInput (Service i) (Version i) (Name i) (NewName i) (Bucket i)
    (User i) (SecretKey i) v (Period i) (FormatVersion i) (GzipLevel i)
    (Format i) (MessageType i) (ResponseCondition i) (TimestampFormat i)
    (Placement i).

Definition set_Period (v : N) (i : UpdateGCSInput) : UpdateGCSInput :=
  mkUpdateGCSInput (Service i) (Version i) (Name i) (NewName i) (Bucket i)
    (User i) (SecretKey i) (Path i) v (FormatVersion i) (GzipLevel i)
    (Format i) (MessageType i) (ResponseCondition i) (TimestampFormat i)
    (Placement i).

Definition set_FormatVersion (v : N) (i : UpdateGCSInput) : UpdateGCSInput :=
  mkUpdateGCSInput (Service i) (Version i) (Name i) (NewName i) (Bucket i)
    (User i) (SecretKey i) (Path i) (Period i) v (GzipLevel i)
    (Format i) (MessageType i) (ResponseCondition i) (TimestampFormat i)
    (Placement i).

Definition set_GzipLevel (v : N) (i : UpdateGCSInput) : UpdateGCSInput :=
  mkUpdateGCSInput (Service i) (Version i) (Name i) (NewName i) (Bucket i)
    (User i) (SecretKey i) (Path i) (Period i) (FormatVersion i) v
    (Format i) (MessageType i) (ResponseCondition i) (TimestampFormat i)
    (Placement i).

Definition set_Format (v : string) (i : UpdateGCSInput) : UpdateGCSInput :=
  mkUpdateGCSInput (Service i) (Version i) (Name i) (NewName i) (Bucket i)
    (User i) (SecretKey i) (Path i) (Period i) (FormatVersion i)
    (GzipLevel i) v (MessageType i) (ResponseCondition i)
    (TimestampFormat i) (Placement i).

Definition set_MessageType (v : string) (i : UpdateGCSInput) : UpdateGCSInput :=
  mkUpdateGCSInput (Service i) (Version i) (Name i) (NewName i) (Bucket i)
    (User i) (SecretKey i) (Path i) (Period i) (FormatVersion i)
    (GzipLevel i) (Format i) v (ResponseCondition i)
    (TimestampFormat i) (Placement i).

Definition set_ResponseCondition (v : string) (i : UpdateGCSInput) : UpdateGCSInput :=
  mkUpdateGCSInput (Service i) (Version i) (Name i) (NewName i) (Bucket i)
    (User i) (SecretKey i) (Path i) (Period i) (FormatVersion i)
    (GzipLevel i) (Format i) (MessageType i) v
    (TimestampFormat i) (Placement i).

Definition set_TimestampFormat (v : string) (i : UpdateGCSInput) : UpdateGCSInput :=
  mkUpdateGCSInput (Service i) (Version i) (Name i) (NewName i) (Bucket i)
    (User i) (SecretKey i) (Path i) (Period i) (FormatVersion i)
    (GzipLevel i) (Format i) (MessageType i) (ResponseCondition i)
    v (Placement i).

Definition set_Placement (v : string) (i : UpdateGCSInput) : UpdateGCSInput :=
  mkUpdateGCSInput (Service i) (Version i) (Name i) (NewName i) (Bucket i)
    (User i) (SecretKey i) (Path i) (Period i) (FormatVersion i)
    (GzipLevel i) (Format i) (MessageType i) (ResponseCondition i)
    (TimestampFormat i) v.

(** The part of [api.Interface] the command uses.  A client is a state
    machine over its own state [S] (the network, a mock's counters):
    each method consumes a request and yields a result and a new state. *)
Class Client (S : Type) : Type := {
  GetGCS : GetGCSInput -> S -> result GCS * S;
  UpdateGCS : UpdateGCSInput -> S -> result GCS * S
}.

(** One client call as observed from outside: the request sent and the
    result received. *)
Inductive Call : Type :=
| CallGetGCS (i : GetGCSInput) (r : result GCS)
| CallUpdateGCS (i : UpdateGCSInput) (r : result GCS).

Definition Call_failure (c : Call) : option error :=
  match c with
  | CallGetGCS _ (inl e) | CallUpdateGCS _ (inl e) => Some e
  | _ => None
  end.

Definition Call_succeeded (c : Call) : bool :=
  match Call_failure c with Some _ => false | None => true end.

Definition is_GetGCS (c : Call) : bool :=
  match c with CallGetGCS _ _ => true | _ => false end.

Definition is_UpdateGCS (c : Call) : bool :=
  match c with CallUpdateGCS _ _ => true | _ => false end.

End fastly.

(** ** package fmt / text: formatted output *)

(** An argument of a variadic [...interface{}] parameter; the command only
    passes strings and ints. *)
Inductive Arg : Type :=
| ArgString (s : string)
| ArgInt (z : Z).

(** Decimal rendering of a Go [int], as [%d] prints it. *)
Definition Itoa (z : Z) : string := NilZero.string_of_int (Z.to_int z).

Definition verb_output (verb : ascii) (a : Arg) : string :=
  match verb, a with
  | "s"%char, ArgString s => s
  | "d"%char, ArgInt z => Itoa z
  | v, ArgString s => "%!" ++ String v ("(string=" ++ s ++ ")")
  | v, ArgInt z => "%!" ++ String v ("(int=" ++ Itoa z ++ ")")
  end.

(** [fmt.Sprintf] on the fragment the command uses: the verbs [%s] and
    [%d], the literal [%%], and Go's markers for a missing argument. *)
Fixpoint Sprintf (format : string) (args : list Arg) : string :=
  match format with
  | EmptyString => EmptyString
  | String "%"%char EmptyString => "%!(NOVERB)"
  | String "%"%char (String "%"%char rest) => String "%"%char (Sprintf rest args)
  | String "%"%char (String v rest) =>
      match args with
      | [] => "%!" ++ String v ("(MISSING)" ++ Sprintf rest [])
      | a :: args' => verb_output v a ++ Sprintf rest args'
      end
  | String ch rest => String ch (Sprintf rest args)
  end.

(** [s] occurs in [t]. *)
Definition contains (s t : string) : Prop :=
  exists pre post, t = pre ++ s ++ post.

(** The bytes written so far to an [io.Writer]. *)
Definition Writer := string.

Module text.

(** Modelled from the spec: [text.Success], whose body is not part of the
    sources at hand.  A successful call "produces a formatted confirmation
    message": the format is expanded with its arguments and written to
    the writer. *)
Definition Success (w : Writer) (format : string) (args : list Arg) : Writer :=
  w ++ Sprintf format args.

End text.

(** ** The flag library (kingpin), as far as the command relies on it

    The library is an external package, not part of this repository: this
    module is a model of its contract (flag registration, the order in
    which a command line is processed, which errors stop it), not a
    translation of its code. *)
Module kingpin.

(** How a flag is named on the command line: [--name] or [-n]. *)
Inductive FlagName : Type :=
| Long (name : string)
| ShortName (ch : ascii).

(** What is given to a flag.  A string is taken as it is.  An unsigned
    integer is read by [strconv.ParseUint], which is exact on the text it
    accepts, so the setting carries the number it denotes.  A signed
    integer is read through a float ([strconv.ParseFloat] followed by the
    conversion [int(v)]), which rounds and wraps, so the number stored
    need not be the number written: the setting carries the text, and the
    conversion is [IntFromFloat] below.  A setting of the wrong kind stands
    for text that does not convert. *)
Inductive Setting : Type :=
| StringValue (s : string)
| IntValue (text : string)
| UintValue (n : N).

(** The library's conversion of the text given to an [int] flag:
    [strconv.ParseFloat(text, 64)] and then [int(v)], [None] when the text
    is refused.  It is floating-point and, out of range, depends on the
    platform, so it is taken as a parameter. *)
Class Strconv : Type := {
  IntFromFloat : string -> option Z
}.

Section Clauses.

Context {conv : Strconv}.
Variable C : Type.

(** A registered flag: its long and short names, whether it is required,
    the action run when it is given, and the variable it stores into. *)
Record FlagClause : Type := mkFlagClause {
  name : string;
  shorthand : option ascii;
  required : bool;
  action : C -> C;
  value : Setting -> C -> option C
}.

Definition Flag (long : string) : FlagClause :=
  mkFlagClause long None false (fun c => c) (fun _ _ => None).

Definition Short (ch : ascii) (f : FlagClause) : FlagClause :=
  mkFlagClause (name f) (Some ch) (required f) (action f) (value f).

Definition Required (f : FlagClause) : FlagClause :=
  mkFlagClause (name f) (shorthand f) true (action f) (value f).

Definition Action (a : C -> C) (f : FlagClause) : FlagClause :=
  mkFlagClause (name f) (shorthand f) (required f) a (value f).

Definition StringVar (store : string -> C -> C) (f : FlagClause) : FlagClause :=
  mkFlagClause (name f) (shorthand f) (required f) (action f)
    (fun v c => match v with StringValue s => Some (store s c) | _ => None end).

(** An [int] variable takes what the conversion makes of the text. *)
Definition IntVar (store : Z -> C -> C) (f : FlagClause) : FlagClause :=
  mkFlagClause (name f) (shorthand f) (required f) (action f)
    (fun v c =>
       match v with
       | IntValue text =>
           match IntFromFloat text with
           | Some z => Some (store z c)
           | None => None
           end
       | _ => None
       end).

Definition UintVar (store : N -> C -> C) (f : FlagClause) : FlagClause :=
  mkFlagClause (name f) (shorthand f) (required f) (action f)
    (fun v c => match v with UintValue n => Some (store n c) | _ => None end).

(** A [uint8] variable only takes values below 256. *)
Definition Uint8Var (store : N -> C -> C) (f : FlagClause) : FlagClause :=
  mkFlagClause (name f) (shorthand f) (required f) (action f)
    (fun v c =>
       match v with
       | UintValue n => if (n <? 256)%N then Some (store n c) else None
       | _ => None
       end).

Definition matches (n : FlagName) (f : FlagClause) : bool :=
  match n with
  | Long l => l =? name f
  | ShortName ch =>
      match shorthand f with
      | Some ch' => Ascii.eqb ch ch'
      | None => false
      end
  end.

(** The flags met on the command line, each resolved to its clause; an
    unknown flag is an error. *)
Fixpoint resolve (flags : list FlagClause) (args : list (FlagName * Setting))
  : result (list (FlagClause * Setting)) :=
  match args with
  | [] => inr []
  | (n, v) :: rest =>
      match find (matches n) flags with
      | None => inl (FlagError "unknown flag")
      | Some f =>
          match resolve flags rest with
          | inl e => inl e
          | inr elements => inr ((f, v) :: elements)
          end
      end
  end.

Definition given (elements : list (FlagClause * Setting)) (f : FlagClause) : bool :=
  existsb (fun e => name (fst e) =? name f) elements.

(** Every required flag must have been given.  When several are missing
    the library's message names one of them, whichever its iteration over
    the flags meets first, which varies from run to run: the error here
    does not say which. *)
Definition validateRequired (flags : list FlagClause)
  (elements : list (FlagClause * Setting)) : option error :=
  match filter (fun f => required f && negb (given elements f)) flags with
  | [] => None
  | _ :: _ => Some (FlagError "required flag not provided")
  end.

(** Store each given value into its variable; a flag may not be repeated
    and its text must convert. *)
Fixpoint setValues (elements : list (FlagClause * Setting)) (seen : list string)
  (c : C) : result C :=
  match elements with
  | [] => inr c
  | (f, v) :: rest =>
      if existsb (String.eqb (name f)) seen then
        inl (FlagError ("flag '" ++ name f ++ "' cannot be repeated"))
      else
        match value f v c with
        | None => inl (FlagError ("invalid value for flag --" ++ name f))
        | Some c' => setValues rest (name f :: seen) c'
        end
  end.

(** Run the action of each given flag. *)
Definition applyActions (elements : list (FlagClause * Setting)) (c : C) : C :=
  fold_left (fun c e => action (fst e) c) elements c.

(** Parsing a command line against the registered flags: the flags are
    resolved, their values stored, the required flags checked, and the
    actions run; the first step that fails stops the parse, so a repeated
    flag is reported before a missing one. *)
Definition Parse (flags : list FlagClause) (args : list (FlagName * Setting))
  (c : C) : result C :=
  match resolve flags args with
  | inl e => inl e
  | inr elements =>
      match setValues elements [] c with
      | inl e => inl e
      | inr c' =>
          match validateRequired flags elements with
          | Some e => inl e
          | None => inr (applyActions elements c')
          end
      end
  end.

End Clauses.

Arguments Flag {C} long.
Arguments Short {C} ch f.
Arguments Required {C} f.
Arguments Action {C} a f.
Arguments StringVar {C} store f.
Arguments IntVar {conv C} store f.
Arguments UintVar {C} store f.
Arguments Uint8Var {C} store f.

End kingpin.

(** ** package gcs: the command *)
Module gcs.

(** [UpdateCommand].  The embedded [common.Base] contributes the client
    ([c.Globals.Client], here the [fastly.Client] instance in scope) and
    the flag clause ([c.CmdClause], here the list [NewUpdateCommand]
    returns). *)
Record UpdateCommand : Type := mkUpdateCommand {
  manifest : manifest.Data;
  EndpointName : string;
  Version : Z;
  NewName : OptionalString;
  Bucket : OptionalString;
  User : OptionalString;
  SecretKey : OptionalString;
  Path : OptionalString;
  Period : OptionalUint;
  FormatVersion : OptionalUint;
  GzipLevel : OptionalUint8;
  Format : OptionalString;
  ResponseCondition : OptionalString;
  TimestampFormat : OptionalString;
  MessageType : OptionalString;
  Placement : OptionalString
}.

(** Updates of one field of the command, the targets of the flag bindings. *)
Definition upd_manifest (g : manifest.Data -> manifest.Data) (c : UpdateCommand) : UpdateCommand :=
  mkUpdateCommand (g (manifest c)) (EndpointName c) (Version c)
    (NewName c) (Bucket c) (User c) (SecretKey c) (Path c) (Period c)
    (FormatVersion c) (GzipLevel c) (Format c) (ResponseCondition c)
    (TimestampFormat c) (MessageType c) (Placement c).

Definition upd_EndpointName (g : string -> string) (c : UpdateCommand) : UpdateCommand :=
  mkUpdateCommand (manifest c) (g (EndpointName c)) (Version c)
    (NewName c) (Bucket c) (User c) (SecretKey c) (Path c) (Period c)
    (FormatVersion c) (GzipLevel c) (Format c) (ResponseCondition c)
    (TimestampFormat c) (MessageType c) (Placement c).

Definition upd_Version (g : Z -> Z) (c : UpdateCommand) : UpdateCommand :=
  mkUpdateCommand (manifest c) (EndpointName c) (g (Version c))
    (NewName c) (Bucket c) (User c) (SecretKey c) (Path c) (Period c)
    (FormatVersion c) (GzipLevel c) (Format c) (ResponseCondition c)
    (TimestampFormat c) (MessageType c) (Placement c).

Definition upd_NewName (g : OptionalString -> OptionalString) (c : UpdateCommand) : UpdateCommand :=
  mkUpdateCommand (manifest c) (EndpointName c) (Version c)
    (g (NewName c)) (Bucket c) (User c) (SecretKey c) (Path c) (Period c)
    (FormatVersion c) (GzipLevel c) (Format c) (ResponseCondition c)
    (TimestampFormat c) (MessageType c) (Placement c).

Definition upd_Bucket (g : OptionalString -> OptionalString) (c : UpdateCommand) : UpdateCommand :=
  mkUpdateCommand (manifest c) (EndpointName c) (Version c) (NewName c)
    (g (Bucket c)) (User c) (SecretKey c) (Path c) (Period c)
    (FormatVersion c) (GzipLevel c) (Format c) (ResponseCondition c)
    (TimestampFormat c) (MessageType c) (Placement c).

Definition upd_User (g : OptionalString -> OptionalString) (c : UpdateCommand) : UpdateCommand :=
  mkUpdateCommand (manifest c) (EndpointName c) (Version c) (NewName c)
    (Bucket c) (g (User c)) (SecretKey c) (Path c) (Period c)
    (FormatVersion c) (GzipLevel c) (Format c) (ResponseCondition c)
    (TimestampFormat c) (MessageType c) (Placement c).

Definition upd_SecretKey (g : OptionalString -> OptionalString) (c : UpdateCommand) : UpdateCommand :=
  mkUpdateCommand (manifest c) (EndpointName c) (Version c) (NewName c)
    (Bucket c) (User c) (g (SecretKey c)) (Path c) (Period c)
    (FormatVersion c) (GzipLevel c) (Format c) (ResponseCondition c)
    (TimestampFormat c) (MessageType c) (Placement c).

Definition upd_Path (g : OptionalString -> OptionalString) (c : UpdateCommand) : UpdateCommand :=
  mkUpdateCommand (manifest c) (EndpointName c) (Version c) (NewName c)
    (Bucket c) (User c) (SecretKey c) (g (Path c)) (Period c)
    (FormatVersion c) (GzipLevel c) (Format c) (ResponseCondition c)
    (TimestampFormat c) (MessageType c) (Placement c).

Definition upd_Period (g : OptionalUint -> OptionalUint) (c : UpdateCommand) : UpdateCommand :=
  mkUpdateCommand (manifest c) (EndpointName c) (Version c) (NewName c)
    (Bucket c) (User c) (SecretKey c) (Path c) (g (Period c))
    (FormatVersion c) (GzipLevel c) (Format c) (ResponseCondition c)
    (TimestampFormat c) (MessageType c) (Placement c).

Definition upd_FormatVersion (g : OptionalUint -> OptionalUint) (c : UpdateCommand) : UpdateCommand :=
  mkUpdateCommand (manifest c) (EndpointName c) (Version c) (NewName c)
    (Bucket c) (User c) (SecretKey c) (Path c) (Period c)
    (g (FormatVersion c)) (GzipLevel c) (Format c) (ResponseCondition c)
    (TimestampFormat c) (MessageType c) (Placement c).

Definition upd_GzipLevel (g : OptionalUint8 -> OptionalUint8) (c : UpdateCommand) : UpdateCommand :=
  mkUpdateCommand (manifest c) (EndpointName c) (Version c) (NewName c)
    (Bucket c) (User c) (SecretKey c) (Path c) (Period c)
    (FormatVersion c) (g (GzipLevel c)) (Format c) (ResponseCondition c)
    (TimestampFormat c) (MessageType c) (Placement c).

Definition upd_Format (g : OptionalString -> OptionalString) (c : UpdateCommand) : UpdateCommand :=
  mkUpdateCommand (manifest c) (EndpointName c) (Version c) (NewName c)
    (Bucket c) (User c) (SecretKey c) (Path c) (Period c)
    (FormatVersion c) (GzipLevel c) (g (Format c)) (ResponseCondition c)
    (TimestampFormat c) (MessageType c) (Placement c).

Definition upd_ResponseCondition (g : OptionalString -> OptionalString) (c : UpdateCommand) : UpdateCommand :=
  mkUpdateCommand (manifest c) (EndpointName c) (Version c) (NewName c)
    (Bucket c) (User c) (SecretKey c) (Path c) (Period c)
    (FormatVersion c) (GzipLevel c) (Format c) (g (ResponseCondition c))
    (TimestampFormat c) (MessageType c) (Placement c).

Definition upd_TimestampFormat (g : OptionalString -> OptionalString) (c : UpdateCommand) : UpdateCommand :=
  mkUpdateCommand (manifest c) (EndpointName c) (Version c) (NewName c)
    (Bucket c) (User c) (SecretKey c) (Path c) (Period c)
    (FormatVersion c) (GzipLevel c) (Format c) (ResponseCondition c)
    (g (TimestampFormat c)) (MessageType c) (Placement c).

Definition upd_MessageType (g : OptionalString -> OptionalString) (c : UpdateCommand) : UpdateCommand :=
  mkUpdateCommand (manifest c) (EndpointName c) (Version c) (NewName c)
    (Bucket c) (User c) (SecretKey c) (Path c) (Period c)
    (FormatVersion c) (GzipLevel c) (Format c) (ResponseCondition c)
    (TimestampFormat c) (g (MessageType c)) (Placement c).

Definition upd_Placement (g : OptionalString -> OptionalString) (c : UpdateCommand) : UpdateCommand :=
  mkUpdateCommand (manifest c) (EndpointName c) (Version c) (NewName c)
    (Bucket c) (User c) (SecretKey c) (Path c) (Period c)
    (FormatVersion c) (GzipLevel c) (Format c) (ResponseCondition c)
    (TimestampFormat c) (MessageType c) (g (Placement c)).


Definition set_ServiceID (v : string) : UpdateCommand -> UpdateCommand :=
  upd_manifest (fun m => manifest.mkData (manifest.file m) (manifest.mkFlag v)).

Definition set_Version (v : Z) : UpdateCommand -> UpdateCommand :=
  upd_Version (fun _ => v).

Definition set_EndpointName (v : string) : UpdateCommand -> UpdateCommand :=
  upd_EndpointName (fun _ => v).

Import kingpin.

Local Notation "x |> f" := (f x) (at level 65, left associativity, only parsing).

(** [NewUpdateCommand]: the zero-valued command with the manifest file read
    into it, and the flags registered on its clause.  (Help texts are left
    out; they play no part in parsing.) *)
Definition NewUpdateCommand {conv : Strconv} (file : manifest.File)
  : UpdateCommand * list (FlagClause UpdateCommand) :=
  let zeroS := mkOptional false EmptyString in
  let zeroN := mkOptional false 0%N in
  let c :=
    mkUpdateCommand (manifest.mkData file (manifest.mkFlag EmptyString))
      EmptyString 0%Z
      zeroS zeroS zeroS zeroS zeroS zeroN zeroN zeroN zeroS zeroS zeroS zeroS
      zeroS in
  (c,
   [ Flag "service-id" |> Short "s" |> StringVar set_ServiceID;
     Flag "version" |> Required |> IntVar set_Version;
     Flag "name" |> Short "n" |> Required |> StringVar set_EndpointName;

     Flag "new-name" |> Action (upd_NewName Optional_Set)
       |> StringVar (fun v => upd_NewName (Optional_store v));
     Flag "bucket" |> Action (upd_Bucket Optional_Set)
       |> StringVar (fun v => upd_Bucket (Optional_store v));
     Flag "user" |> Action (upd_User Optional_Set)
       |> StringVar (fun v => upd_User (Optional_store v));
     Flag "secret-key" |> Action (upd_SecretKey Optional_Set)
       |> StringVar (fun v => upd_SecretKey (Optional_store v));
     Flag "path" |> Action (upd_Path Optional_Set)
       |> StringVar (fun v => upd_Path (Optional_store v));
     Flag "period" |> Action (upd_Period Optional_Set)
       |> UintVar (fun v => upd_Period (Optional_store v));
     Flag "format-version" |> Action (upd_FormatVersion Optional_Set)
       |> UintVar (fun v => upd_FormatVersion (Optional_store v));
     Flag "gzip-level" |> Action (upd_GzipLevel Optional_Set)
       |> Uint8Var (fun v => upd_GzipLevel (Optional_store v));
     Flag "format" |> Action (upd_Format Optional_Set)
       |> StringVar (fun v => upd_Format (Optional_store v));
     Flag "response-condition" |> Action (upd_ResponseCondition Optional_Set)
       |> StringVar (fun v => upd_ResponseCondition (Optional_store v));
     Flag "timestamp-format" |> Action (upd_TimestampFormat Optional_Set)
       |> StringVar (fun v => upd_TimestampFormat (Optional_store v));
     Flag "message-type" |> Action (upd_MessageType Optional_Set)
       |> StringVar (fun v => upd_MessageType (Optional_store v));
     Flag "placement" |> Action (upd_Placement Optional_Set)
       |> StringVar (fun v => upd_Placement (Optional_store v)) ]).

(** The statement [if c.F.Valid { input.F = c.F.Value }]. *)
Definition assign_if {A} (o : Optional A)
  (set : A -> fastly.UpdateGCSInput -> fastly.UpdateGCSInput)
  (input : fastly.UpdateGCSInput) : fastly.UpdateGCSInput :=
  if Valid o then set (Value o) input else input.

(** Lines 84-156 of [createInput]: the input starts as a copy of the
    endpoint the API returned, then every optional the user set overwrites
    its field. *)
Definition mergeInput (c : UpdateCommand) (gcs : fastly.GCS) : fastly.UpdateGCSInput :=
  let input :=
    {| fastly.Service := fastly.GCS_ServiceID gcs;
       fastly.Version := fastly.GCS_Version gcs;
       fastly.Name := fastly.GCS_Name gcs;
       fastly.NewName := fastly.GCS_Name gcs;
       fastly.Bucket := fastly.GCS_Bucket gcs;
       fastly.User := fastly.GCS_User gcs;
       fastly.SecretKey := fastly.GCS_SecretKey gcs;
       fastly.Path := fastly.GCS_Path gcs;
       fastly.Period := fastly.GCS_Period gcs;
       fastly.FormatVersion := fastly.GCS_FormatVersion gcs;
       fastly.GzipLevel := fastly.GCS_GzipLevel gcs;
       fastly.Format := fastly.GCS_Format gcs;
       fastly.MessageType := fastly.GCS_MessageType gcs;
       fastly.ResponseCondition := fastly.GCS_ResponseCondition gcs;
       fastly.TimestampFormat := fastly.GCS_TimestampFormat gcs;
       fastly.Placement := fastly.GCS_Placement gcs |} in
  (* Set new values if set by user. *)
  let input := assign_if (NewName c) fastly.set_NewName input in
  let input := assign_if (Bucket c) fastly.set_Bucket input in
  let input := assign_if (User c) fastly.set_User input in
  let input := assign_if (SecretKey c) fastly.set_SecretKey input in
  let input := assign_if (Path c) fastly.set_Path input in
  let input := assign_if (Period c) fastly.set_Period input in
  let input := assign_if (FormatVersion c) fastly.set_FormatVersion input in
  let input := assign_if (GzipLevel c) fastly.set_GzipLevel input in
  let input := assign_if (Format c) fastly.set_Format input in
  let input := assign_if (ResponseCondition c) fastly.set_ResponseCondition input in
  let input := assign_if (TimestampFormat c) fastly.set_TimestampFormat input in
  let input := assign_if (MessageType c) fastly.set_MessageType input in
  let input := assign_if (Placement c) fastly.set_Placement input in
  input.

Section Run.

Context {S : Type} {client : fastly.Client S}.

(** [text.Success] as the command calls it: writer, format, arguments.
    Package [text] is not among the sources at hand, so the command is
    parametrised by it; [text.Success] above is the instance read off the
    specification. *)
Variable Success : Writer -> string -> list Arg -> Writer.

(** The world a run acts on. *)
Record World : Type := mkWorld {
  client_state : S;
  calls : list fastly.Call;
  out : Writer
}.

(** Computations that may fail with a Go error and act on the world. *)
Definition M (A : Type) : Type := World -> result A * World.

Definition ret {A} (a : A) : M A := fun w => (inr a, w).

Definition fail {A} (e : error) : M A := fun w => (inl e, w).

Definition bind {A B} (m : M A) (k : A -> M B) : M B :=
  fun w =>
    match m w with
    | (inl e, w') => (inl e, w')
    | (inr a, w') => k a w'
    end.

Local Notation "x <- m ;; k" := (bind m (fun x => k))
  (at level 61, m at next level, right associativity).

(** [c.Globals.Client.GetGCS(i)]: one call to the client, logged. *)
Definition Client_GetGCS (i : fastly.GetGCSInput) : M fastly.GCS :=
  fun w =>
    let (r, s') := fastly.GetGCS i (client_state w) in
    (r, mkWorld s' (calls w ++ [fastly.CallGetGCS i r])%list (out w)).

(** [c.Globals.Client.UpdateGCS(i)]: one call to the client, logged. *)
Definition Client_UpdateGCS (i : fastly.UpdateGCSInput) : M fastly.GCS :=
  fun w =>
    let (r, s') := fastly.UpdateGCS i (client_state w) in
    (r, mkWorld s' (calls w ++ [fastly.CallUpdateGCS i r])%list (out w)).

Definition text_Success (format : string) (args : list Arg) : M unit :=
  fun w =>
    (inr tt, mkWorld (client_state w) (calls w) (Success (out w) format args)).

(** [createInput] transforms values parsed from CLI flags into an object to
    be used by the API client library. *)
Definition createInput (c : UpdateCommand) : M fastly.UpdateGCSInput :=
  let (serviceID, source) := manifest.ServiceID (manifest c) in
  if manifest.Source_eqb source manifest.SourceUndefined then
    fail ErrNoServiceID
  else
    gcs <- Client_GetGCS
             {| fastly.Get_Service := serviceID;
                fastly.Get_Name := EndpointName c;
                fastly.Get_Version := Version c |} ;;
    ret (mergeInput c gcs).

(** [Exec] invokes the application logic for the command; the Go [error]
    it returns is [inl e], and [nil] is [inr tt]. *)
Definition Exec (c : UpdateCommand) : M unit :=
  input <- createInput c ;;
  gcs <- Client_UpdateGCS input ;;
  text_Success "Updated GCS logging endpoint %s (service %s version %d)"
    [ArgString (fastly.GCS_Name gcs);
     ArgString (fastly.GCS_ServiceID gcs);
     ArgInt (fastly.GCS_Version gcs)].

(** Modelled from the spec: the process exit status, set by [main], which
    is not among the sources at hand.  "Exit codes: 0 on success, non-zero
    on any API or validation error." *)
Definition exitCode (r : result unit) : Z :=
  match r with
  | inr _ => 0%Z
  | inl _ => 1%Z
  end.

(** The client calls a computation adds to the log of a world. *)
Definition issued {A} (m : M A) (w : World) : list fastly.Call :=
  skipn (length (calls w)) (calls (snd (m w))).

End Run.

End gcs.

(** ** A mock API server, for running the command on concrete inputs *)
Module mock.

(** One stored endpoint (if any) and a switch that makes the service
    version read-only, as an activated version is. *)
Record Server : Type := mkServer {
  stored : option fastly.GCS;
  locked : bool
}.

Definition addresses (svc name : string) (ver : Z) (g : fastly.GCS) : bool :=
  (svc =? fastly.GCS_ServiceID g) && (name =? fastly.GCS_Name g)
  && (ver =? fastly.GCS_Version g)%Z.

Definition get (i : fastly.GetGCSInput) (s : Server) : result fastly.GCS * Server :=
  match stored s with
  | Some g =>
      if addresses (fastly.Get_Service i) (fastly.Get_Name i) (fastly.Get_Version i) g
      then (inr g, s)
      else (inl (APIError "404 Not Found"), s)
  | None => (inl (APIError "404 Not Found"), s)
  end.

Definition update (i : fastly.UpdateGCSInput) (s : Server) : result fastly.GCS * Server :=
  match stored s with
  | Some g =>
      if addresses (fastly.Service i) (fastly.Name i) (fastly.Version i) g then
        if locked s then (inl (APIError "409 Conflict"), s)
        else
          let g' :=
            fastly.mkGCS (fastly.Service i) (fastly.Version i) (fastly.NewName i)
              (fastly.Bucket i) (fastly.User i) (fastly.SecretKey i)
              (fastly.Path i) (fastly.Period i) (fastly.FormatVersion i)
              (fastly.GzipLevel i) (fastly.Format i) (fastly.MessageType i)
              (fastly.ResponseCondition i) (fastly.TimestampFormat i)
              (fastly.Placement i) in
          (inr g', mkServer (Some g') (locked s))
      else (inl (APIError "404 Not Found"), s)
  | None => (inl (APIError "404 Not Found"), s)
  end.

#[global] Instance server : fastly.Client Server :=
  {| fastly.GetGCS := get; fastly.UpdateGCS := update |}.

(** The endpoint "logs" of service "svc1", version 3. *)
Definition endpoint : fastly.GCS :=
  fastly.mkGCS "svc1" 3 "logs" "bucket" "user@example.com" "key" "/" 3600 2 0
    "%h %l %u" "classic" EmptyString "%Y-%m-%d" "none".

Definition world (locked : bool) : gcs.World (S := Server) :=
  gcs.mkWorld (mkServer (Some endpoint) locked) [] EmptyString.

Definition empty_world : gcs.World (S := Server) :=
  gcs.mkWorld (mkServer None false) [] EmptyString.

(** A stand-in for the library's int conversion, for running the command
    on examples: it reads plain decimal numerals below 2^53, which a
    float64 holds exactly, so the real conversion gives the same number on
    them; every other text, the empty one included, it refuses. *)
Definition strconv : kingpin.Strconv :=
  {| kingpin.IntFromFloat := fun text =>
       match text, NilEmpty.uint_of_string text with
       | String _ _, Some u =>
           if (Z.of_uint u <? 2 ^ 53)%Z then Some (Z.of_uint u) else None
       | _, _ => None
       end |}.

(** [update --service-id svc1 --version 3 -n logs --new-name archive
    --period 60] *)
Definition rename_args : list (kingpin.FlagName * kingpin.Setting) :=
  [ (kingpin.Long "service-id", kingpin.StringValue "svc1");
    (kingpin.Long "version", kingpin.IntValue "3");
    (kingpin.ShortName "n", kingpin.StringValue "logs");
    (kingpin.Long "new-name", kingpin.StringValue "archive");
    (kingpin.Long "period", kingpin.UintValue 60) ].

Definition unset : OptionalString := mkOptional false EmptyString.
Definition unsetN : OptionalUint := mkOptional false 0%N.

(** The command those arguments parse to. *)
Definition rename_cmd : gcs.UpdateCommand :=
  gcs.mkUpdateCommand
    (manifest.mkData (manifest.mkFile EmptyString) (manifest.mkFlag "svc1"))
    "logs" 3
    (mkOptional true "archive") unset unset unset unset (mkOptional true 60%N)
    unsetN unsetN unset unset unset unset unset.

(** A command with no optional flag, and the service ID left to the
    manifest file. *)
Definition plain_cmd (file_id name : string) : gcs.UpdateCommand :=
  gcs.mkUpdateCommand
    (manifest.mkData (manifest.mkFile file_id) (manifest.mkFlag EmptyString))
    name 3
    unset unset unset unset unset unsetN unsetN unsetN unset unset unset unset
    unset.

(** The input merged for [rename_cmd] from [endpoint], and the endpoint
    the server reports once it has applied it. *)
Definition rename_input : fastly.UpdateGCSInput :=
  fastly.mkUpdateGCSInput "svc1" 3 "logs" "archive" "bucket" "user@example.com"
    "key" "/" 60 2 0 "%h %l %u" "classic" EmptyString "%Y-%m-%d" "none".

Definition renamed : fastly.GCS :=
  fastly.mkGCS "svc1" 3 "archive" "bucket" "user@example.com" "key" "/" 60 2 0
    "%h %l %u" "classic" EmptyString "%Y-%m-%d" "none".

(** The input merged for [plain_cmd "svc1" "logs"] from [endpoint]. *)
Definition plain_input : fastly.UpdateGCSInput :=
  fastly.mkUpdateGCSInput "svc1" 3 "logs" "logs" "bucket" "user@example.com"
    "key" "/" 3600 2 0 "%h %l %u" "classic" EmptyString "%Y-%m-%d" "none".

(** [update --service-id= --version 3 --name logs], the service ID given
    but empty, and the same command line without the flag. *)
Definition empty_service_id_args : list (kingpin.FlagName * kingpin.Setting) :=
  [ (kingpin.Long "service-id", kingpin.StringValue EmptyString);
    (kingpin.Long "version", kingpin.IntValue "3");
    (kingpin.Long "name", kingpin.StringValue "logs") ].

Definition no_service_id_args : list (kingpin.FlagName * kingpin.Setting) :=
  [ (kingpin.Long "version", kingpin.IntValue "3");
    (kingpin.Long "name", kingpin.StringValue "logs") ].

End mock.

(** ** What a run does, seen from outside *)

Section Observations.

Context {S : Type} {client : fastly.Client S}.
Variable Success : Writer -> string -> list Arg -> Writer.

Abbreviation World := (gcs.World (S := S)).

(** The request [createInput] sends to [GetGCS]. *)
Definition getRequest (c : gcs.UpdateCommand) : fastly.GetGCSInput :=
  {| fastly.Get_Service := fst (manifest.ServiceID (gcs.manifest c));
     fastly.Get_Name := gcs.EndpointName c;
     fastly.Get_Version := gcs.Version c |}.

Definition resolved (c : gcs.UpdateCommand) : bool :=
  negb (manifest.Source_eqb (snd (manifest.ServiceID (gcs.manifest c)))
          manifest.SourceUndefined).

(** The service ID given by flag, and the one of the manifest file. *)
Definition flagServiceID (c : gcs.UpdateCommand) : string :=
  manifest.Flag_ServiceID (manifest.flag (gcs.manifest c)).

Definition fileServiceID (c : gcs.UpdateCommand) : string :=
  manifest.File_ServiceID (manifest.file (gcs.manifest c)).

(** The message [Exec] prints for the endpoint [g]. *)
Definition successOutput (o : Writer) (g : fastly.GCS) : Writer :=
  Success o "Updated GCS logging endpoint %s (service %s version %d)"
    [ArgString (fastly.GCS_Name g);
     ArgString (fastly.GCS_ServiceID g);
     ArgInt (fastly.GCS_Version g)].

(** The runs of [createInput] from the world [w]: what it returns and the
    world it leaves. *)
Inductive createInputRun (c : gcs.UpdateCommand) (w : World)
  : result fastly.UpdateGCSInput -> World -> Prop :=
| InputNoServiceID :
    resolved c = false ->
    createInputRun c w (inl ErrNoServiceID) w
| InputGetFailed e s1 :
    resolved c = true ->
    fastly.GetGCS (getRequest c) (gcs.client_state w) = (inl e, s1) ->
    createInputRun c w (inl e)
      (gcs.mkWorld s1
         (gcs.calls w ++ [fastly.CallGetGCS (getRequest c) (inl e)])%list
         (gcs.out w))
| InputMerged g s1 :
    resolved c = true ->
    fastly.GetGCS (getRequest c) (gcs.client_state w) = (inr g, s1) ->
    createInputRun c w (inr (gcs.mergeInput c g))
      (gcs.mkWorld s1
         (gcs.calls w ++ [fastly.CallGetGCS (getRequest c) (inr g)])%list
         (gcs.out w)).

(** The runs of [Exec] from the world [w]. *)
Inductive ExecRun (c : gcs.UpdateCommand) (w : World)
  : result unit -> World -> Prop :=
| ExecNoInput e w1 :
    createInputRun c w (inl e) w1 ->
    ExecRun c w (inl e) w1
| ExecUpdateFailed input w1 e s2 :
    createInputRun c w (inr input) w1 ->
    fastly.UpdateGCS input (gcs.client_state w1) = (inl e, s2) ->
    ExecRun c w (inl e)
      (gcs.mkWorld s2
         (gcs.calls w1 ++ [fastly.CallUpdateGCS input (inl e)])%list
         (gcs.out w1))
| ExecUpdated input w1 g' s2 :
    createInputRun c w (inr input) w1 ->
    fastly.UpdateGCS input (gcs.client_state w1) = (inr g', s2) ->
    ExecRun c w (inr tt)
      (gcs.mkWorld s2
         (gcs.calls w1 ++ [fastly.CallUpdateGCS input (inr g')])%list
         (successOutput (gcs.out w1) g')).

(** What a run of [createInput] shows from outside: the result returned and
    the client calls made. *)
Inductive InputShape (c : gcs.UpdateCommand)
  : result fastly.UpdateGCSInput -> list fastly.Call -> Prop :=
| ShapeNoServiceID :
    resolved c = false ->
    InputShape c (inl ErrNoServiceID) []
| ShapeGetFailed e :
    resolved c = true ->
    InputShape c (inl e) [fastly.CallGetGCS (getRequest c) (inl e)]
| ShapeMerged g :
    resolved c = true ->
    InputShape c (inr (gcs.mergeInput c g))
      [fastly.CallGetGCS (getRequest c) (inr g)].

(** What a run of [Exec] shows from outside: the result returned, the
    client calls made, and the writer, which held [o] before. *)
Inductive ExecShape (c : gcs.UpdateCommand) (o : Writer)
  : result unit -> list fastly.Call -> Writer -> Prop :=
| ShapeNoInput e new :
    InputShape c (inl e) new ->
    ExecShape c o (inl e) new o
| ShapeUpdateFailed g e :
    resolved c = true ->
    ExecShape c o (inl e)
      [fastly.CallGetGCS (getRequest c) (inr g);
       fastly.CallUpdateGCS (gcs.mergeInput c g) (inl e)] o
| ShapeUpdated g g' :
    resolved c = true ->
    ExecShape c o (inr tt)
      [fastly.CallGetGCS (getRequest c) (inr g);
       fastly.CallUpdateGCS (gcs.mergeInput c g) (inr g')]
      (successOutput o g').

End Observations.

(** How one optional flag [o] shows in the merged input: the [fetched]
    value when the flag is absent, the flag's value when it is present. *)
Definition merged {A} (o : Optional A) (fetched chosen : A) : Prop :=
  (Valid o = false -> chosen = fetched) /\ (Valid o = true -> chosen = Value o).

(** All thirteen optional fields of the input merged from [c] and [g]. *)
Definition mergedInput (c : gcs.UpdateCommand) (g : fastly.GCS)
  (input : fastly.UpdateGCSInput) : Prop :=
  merged (gcs.NewName c) (fastly.GCS_Name g) (fastly.NewName input)
  /\ merged (gcs.Bucket c) (fastly.GCS_Bucket g) (fastly.Bucket input)
  /\ merged (gcs.User c) (fastly.GCS_User g) (fastly.User input)
  /\ merged (gcs.SecretKey c) (fastly.GCS_SecretKey g) (fastly.SecretKey input)
  /\ merged (gcs.Path c) (fastly.GCS_Path g) (fastly.Path input)
  /\ merged (gcs.Period c) (fastly.GCS_Period g) (fastly.Period input)
  /\ merged (gcs.FormatVersion c) (fastly.GCS_FormatVersion g)
       (fastly.FormatVersion input)
  /\ merged (gcs.GzipLevel c) (fastly.GCS_GzipLevel g) (fastly.GzipLevel input)
  /\ merged (gcs.Format c) (fastly.GCS_Format g) (fastly.Format input)
  /\ merged (gcs.ResponseCondition c) (fastly.GCS_ResponseCondition g)
       (fastly.ResponseCondition input)
  /\ merged (gcs.TimestampFormat c) (fastly.GCS_TimestampFormat g)
       (fastly.TimestampFormat input)
  /\ merged (gcs.MessageType c) (fastly.GCS_MessageType g)
       (fastly.MessageType input)
  /\ merged (gcs.Placement c) (fastly.GCS_Placement g) (fastly.Placement input).

(** The first failure among a sequence of client calls. *)
Fixpoint first_failure (l : list fastly.Call) : option error :=
  match l with
  | [] => None
  | x :: l' =>
      match fastly.Call_failure x with
      | Some e => Some e
      | None => first_failure l'
      end
  end.

(** The first error an invocation produces: the local validation error
    when no service ID is resolved, else the first error a client call
    returns. *)
Definition firstError (c : gcs.UpdateCommand) (new : list fastly.Call)
  : option error :=
  if resolved c then first_failure new else Some ErrNoServiceID.

(** The text the format of [Exec] expands to. *)
Definition confirmation (g : fastly.GCS) : string :=
  "Updated GCS logging endpoint " ++ fastly.GCS_Name g
  ++ " (service " ++ fastly.GCS_ServiceID g
  ++ " version " ++ Itoa (fastly.GCS_Version g) ++ ")".

(** ** Reading a command line *)

(** The command the flags of [NewUpdateCommand] parse a command line into,
    starting from the zero-valued command with the manifest [file] read. *)
Definition parseArgs {conv : kingpin.Strconv} (file : manifest.File)
  (args : list (kingpin.FlagName * kingpin.Setting)) : result gcs.UpdateCommand :=
  kingpin.Parse (snd (gcs.NewUpdateCommand file)) args
    (fst (gcs.NewUpdateCommand file)).

(** [n] is a way of writing the flag [x] of the update command: its long
    name, or the short names registered with [Short('s')] for service-id
    and [Short('n')] for name. *)
Definition refers (n : kingpin.FlagName) (x : string) : bool :=
  match n with
  | kingpin.Long l => l =? x
  | kingpin.ShortName ch =>
      if Ascii.eqb ch "s" then "service-id" =? x
      else if Ascii.eqb ch "n" then "name" =? x
      else false
  end.

(** The flag [x] is on the command line. *)
Definition givenFlag (x : string)
  (args : list (kingpin.FlagName * kingpin.Setting)) : bool :=
  existsb (fun a => refers (fst a) x) args.

(** Some element of a resolved command line is the flag named [x]. *)
Definition tagged {C} (x : string)
  (elements : list (kingpin.FlagClause C * kingpin.Setting)) : bool :=
  existsb (fun e => kingpin.name (fst e) =? x) elements.

(** Every element is one of the registered [flags]. *)
Definition resolved_from {C} (flags : list (kingpin.FlagClause C))
  (elements : list (kingpin.FlagClause C * kingpin.Setting)) : Prop :=
  Forall (fun e => In (fst e) flags) elements.

(** What parsing leaves in the optional wrapper [o] of the flag [x]: the
    presence bit says whether the flag was given, the value is the one
    given, and the zero value when the flag was not given. *)
Definition parsedFlag {A} (inj : A -> kingpin.Setting) (zero : A) (x : string)
  (args : list (kingpin.FlagName * kingpin.Setting)) (o : Optional A) : Prop :=
  Valid o = givenFlag x args
  /\ (forall n s, In (n, s) args -> refers n x = true -> s = inj (Value o))
  /\ (givenFlag x args = false -> Value o = zero).

(** The thirteen optional wrappers of a command parsed from [args]. *)
Definition parsedOptionals
  (args : list (kingpin.FlagName * kingpin.Setting)) (c : gcs.UpdateCommand)
  : Prop :=
  parsedFlag kingpin.StringValue EmptyString "new-name" args (gcs.NewName c)
  /\ parsedFlag kingpin.StringValue EmptyString "bucket" args (gcs.Bucket c)
  /\ parsedFlag kingpin.StringValue EmptyString "user" args (gcs.User c)
  /\ parsedFlag kingpin.StringValue EmptyString "secret-key" args (gcs.SecretKey c)
  /\ parsedFlag kingpin.StringValue EmptyString "path" args (gcs.Path c)
  /\ parsedFlag kingpin.UintValue 0%N "period" args (gcs.Period c)
  /\ parsedFlag kingpin.UintValue 0%N "format-version" args (gcs.FormatVersion c)
  /\ parsedFlag kingpin.UintValue 0%N "gzip-level" args (gcs.GzipLevel c)
  /\ parsedFlag kingpin.StringValue EmptyString "format" args (gcs.Format c)
  /\ parsedFlag kingpin.StringValue EmptyString "response-condition" args
       (gcs.ResponseCondition c)
  /\ parsedFlag kingpin.StringValue EmptyString "timestamp-format" args
       (gcs.TimestampFormat c)
  /\ parsedFlag kingpin.StringValue EmptyString "message-type" args
       (gcs.MessageType c)
  /\ parsedFlag kingpin.StringValue EmptyString "placement" args (gcs.Placement c).

(** How the flag [x] of the command line shows in a field of the request:
    the value given with the flag, and the [fetched] value when the flag
    was not given. *)
Definition requestedFlag {A} (inj : A -> kingpin.Setting) (x : string)
  (args : list (kingpin.FlagName * kingpin.Setting)) (fetched chosen : A) : Prop :=
  (forall n s, In (n, s) args -> refers n x = true -> s = inj chosen)
  /\ (givenFlag x args = false -> chosen = fetched).

(** The thirteen optional fields of the request built for the command line
    [args] from the fetched endpoint [g]. *)
Definition requestedInput
  (args : list (kingpin.FlagName * kingpin.Setting)) (g : fastly.GCS)
  (input : fastly.UpdateGCSInput) : Prop :=
  requestedFlag kingpin.StringValue "new-name" args
    (fastly.GCS_Name g) (fastly.NewName input)
  /\ requestedFlag kingpin.StringValue "bucket" args
       (fastly.GCS_Bucket g) (fastly.Bucket input)
  /\ requestedFlag kingpin.StringValue "user" args
       (fastly.GCS_User g) (fastly.User input)
  /\ requestedFlag kingpin.StringValue "secret-key" args
       (fastly.GCS_SecretKey g) (fastly.SecretKey input)
  /\ requestedFlag kingpin.StringValue "path" args
       (fastly.GCS_Path g) (fastly.Path input)
  /\ requestedFlag kingpin.UintValue "period" args
       (fastly.GCS_Period g) (fastly.Period input)
  /\ requestedFlag kingpin.UintValue "format-version" args
       (fastly.GCS_FormatVersion g) (fastly.FormatVersion input)
  /\ requestedFlag kingpin.UintValue "gzip-level" args
       (fastly.GCS_GzipLevel g) (fastly.GzipLevel input)
  /\ requestedFlag kingpin.StringValue "format" args
       (fastly.GCS_Format g) (fastly.Format input)
  /\ requestedFlag kingpin.StringValue "response-condition" args
       (fastly.GCS_ResponseCondition g) (fastly.ResponseCondition input)
  /\ requestedFlag kingpin.StringValue "timestamp-format" args
       (fastly.GCS_TimestampFormat g) (fastly.TimestampFormat input)
  /\ requestedFlag kingpin.StringValue "message-type" args
       (fastly.GCS_MessageType g) (fastly.MessageType input)
  /\ requestedFlag kingpin.StringValue "placement" args
       (fastly.GCS_Placement g) (fastly.Placement input).

(** The setting [s] is a text the library's int conversion turns into
    [z]. *)
Definition storedInt {conv : kingpin.Strconv} (s : kingpin.Setting) (z : Z)
  : Prop :=
  exists text, s = kingpin.IntValue text /\ kingpin.IntFromFloat text = Some z.

(** Every [--service-id] (or [-s]) on the command line has an empty
    value; in particular, there is none. *)
Definition noServiceIDGiven
  (args : list (kingpin.FlagName * kingpin.Setting)) : Prop :=
  forall n v, In (n, kingpin.StringValue v) args ->
              refers n "service-id" = true -> v = EmptyString.

(** The long form of a flag name: [-s] is [--service-id], [-n] is
    [--name]. *)
Definition longForm (n : kingpin.FlagName) : kingpin.FlagName :=
  match n with
  | kingpin.Long l => kingpin.Long l
  | kingpin.ShortName ch =>
      if Ascii.eqb ch "s" then kingpin.Long "service-id"
      else if Ascii.eqb ch "n" then kingpin.Long "name"
      else kingpin.ShortName ch
  end.

(** No optional flag of the command is marked present. *)
Definition noOptionalSet (c : gcs.UpdateCommand) : bool :=
  negb (Valid (gcs.NewName c) || Valid (gcs.Bucket c) || Valid (gcs.User c)
        || Valid (gcs.SecretKey c) || Valid (gcs.Path c) || Valid (gcs.Period c)
        || Valid (gcs.FormatVersion c) || Valid (gcs.GzipLevel c)
        || Valid (gcs.Format c) || Valid (gcs.ResponseCondition c)
        || Valid (gcs.TimestampFormat c) || Valid (gcs.MessageType c)
        || Valid (gcs.Placement c)).

(** The endpoint [g] sent back as it was fetched. *)
Definition resubmit (g : fastly.GCS) : fastly.UpdateGCSInput :=
  fastly.mkUpdateGCSInput (fastly.GCS_ServiceID g) (fastly.GCS_Version g)
    (fastly.GCS_Name g) (fastly.GCS_Name g) (fastly.GCS_Bucket g)
    (fastly.GCS_User g) (fastly.GCS_SecretKey g) (fastly.GCS_Path g)
    (fastly.GCS_Period g) (fastly.GCS_FormatVersion g) (fastly.GCS_GzipLevel g)
    (fastly.GCS_Format g) (fastly.GCS_MessageType g)
    (fastly.GCS_ResponseCondition g) (fastly.GCS_TimestampFormat g)
    (fastly.GCS_Placement g).

(** ** Running the command on the mock *)

Example parse_rename :
  @parseArgs mock.strconv (manifest.mkFile EmptyString) mock.rename_args
  = inr mock.rename_cmd.
Proof. reflexivity. Qed.

Example parse_requires_name :
  @parseArgs mock.strconv (manifest.mkFile "svc1")
    [(kingpin.Long "version", kingpin.IntValue "3")]
  = inl (FlagError "required flag not provided").
Proof. reflexivity. Qed.

Example parse_reports_repeat_first :
  @parseArgs mock.strconv (manifest.mkFile "svc1")
    [(kingpin.Long "version", kingpin.IntValue "3");
     (kingpin.Long "version", kingpin.IntValue "4")]
  = inl (FlagError "flag 'version' cannot be repeated").
Proof. reflexivity. Qed.

Example exec_rename :
  let (r, w) := gcs.Exec text.Success mock.rename_cmd (mock.world false) in
  r = inr tt
  /\ gcs.out w = "Updated GCS logging endpoint archive (service svc1 version 3)"
  /\ length (gcs.calls w) = 2.
Proof. vm_compute. repeat split. Qed.

Example exec_locked :
  fst (gcs.Exec text.Success mock.rename_cmd (mock.world true))
  = inl (APIError "409 Conflict").
Proof. reflexivity. Qed.

Example exec_missing :
  gcs.Exec text.Success mock.rename_cmd mock.empty_world
  = (inl (APIError "404 Not Found"),
     gcs.mkWorld (mock.mkServer None false)
       [fastly.CallGetGCS (fastly.mkGetGCSInput "svc1" "logs" 3)
          (inl (APIError "404 Not Found"))] EmptyString).
Proof. reflexivity. Qed.

(** ** The shape of every run *)

Section Runs.

Context {S : Type} {client : fastly.Client S}.
Variable Success : Writer -> string -> list Arg -> Writer.

Abbreviation World := (gcs.World (S := S)).

Lemma createInput_run c w :
  createInputRun c w (fst (gcs.createInput c w)) (snd (gcs.createInput c w)).
Proof.
  unfold gcs.createInput.
  pose proof (InputNoServiceID c w) as Hno.
  pose proof (fun e s1 => @InputGetFailed _ _ c w e s1) as Hfail.
  pose proof (fun g s1 => @InputMerged _ _ c w g s1) as Hok.
  unfold resolved, getRequest in *.
  destruct (manifest.ServiceID (gcs.manifest c)) as [serviceID source]; simpl in *.
  destruct (manifest.Source_eqb source manifest.SourceUndefined); simpl in *.
  - apply Hno. reflexivity.
  - unfold gcs.bind, gcs.Client_GetGCS, gcs.ret.
    destruct (fastly.GetGCS _ (gcs.client_state w)) as [[e | g] s1]; simpl.
    + apply Hfail; reflexivity.
    + apply Hok; reflexivity.
Qed.

(** [Exec], one step at a time. *)
Lemma Exec_eq c w :
  gcs.Exec Success c w
  = match gcs.createInput c w with
    | (inl e, w1) => (inl e, w1)
    | (inr input, w1) =>
        match fastly.UpdateGCS input (gcs.client_state w1) with
        | (inl e, s2) =>
            (inl e,
             gcs.mkWorld s2
               (gcs.calls w1 ++ [fastly.CallUpdateGCS input (inl e)])%list
               (gcs.out w1))
        | (inr g', s2) =>
            (inr tt,
             gcs.mkWorld s2
               (gcs.calls w1 ++ [fastly.CallUpdateGCS input (inr g')])%list
               (successOutput Success (gcs.out w1) g'))
        end
    end.
Proof.
  unfold gcs.Exec, gcs.bind.
  destruct (gcs.createInput c w) as [[e | input] w1]; [reflexivity |].
  unfold gcs.Client_UpdateGCS, gcs.text_Success.
  destruct (fastly.UpdateGCS input (gcs.client_state w1)) as [[e | g'] s2];
    reflexivity.
Qed.

Lemma Exec_run c w :
  ExecRun Success c w (fst (gcs.Exec Success c w)) (snd (gcs.Exec Success c w)).
Proof.
  unfold gcs.Exec, gcs.bind.
  pose proof (createInput_run c w) as Hin.
  destruct (gcs.createInput c w) as [[e | input] w1]; simpl in *.
  - apply ExecNoInput. exact Hin.
  - unfold gcs.Client_UpdateGCS, gcs.text_Success.
    destruct (fastly.UpdateGCS input (gcs.client_state w1)) as [[e | g'] s2] eqn:Hup;
      simpl.
    + eapply ExecUpdateFailed; eassumption.
    + eapply ExecUpdated; eassumption.
Qed.

(** [Exec] returns in every world, with one of the runs above. *)
Lemma Exec_total c w : exists r w', gcs.Exec Success c w = (r, w') /\ ExecRun Success c w r w'.
Proof.
  exists (fst (gcs.Exec Success c w)), (snd (gcs.Exec Success c w)).
  split; [apply surjective_pairing | apply Exec_run].
Qed.

Lemma issued_new {A} (m : gcs.M A) (w : World) new :
  gcs.calls (snd (m w)) = (gcs.calls w ++ new)%list -> gcs.issued m w = new.
Proof.
  intros H. unfold gcs.issued. rewrite H.
  rewrite skipn_app, skipn_all, Nat.sub_diag. reflexivity.
Qed.

Lemma createInputRun_shape c w r w1 :
  createInputRun c w r w1 ->
  exists new,
    gcs.calls w1 = (gcs.calls w ++ new)%list /\ gcs.out w1 = gcs.out w
    /\ InputShape c r new.
Proof.
  intros H. inversion H; subst; simpl.
  - exists []. rewrite app_nil_r. auto using InputShape.
  - eexists. split; [reflexivity |]. auto using InputShape.
  - eexists. split; [reflexivity |]. auto using InputShape.
Qed.

Lemma ExecRun_shape c w r w' :
  ExecRun Success c w r w' ->
  exists new,
    gcs.calls w' = (gcs.calls w ++ new)%list
    /\ ExecShape Success c (gcs.out w) r new (gcs.out w').
Proof.
  intros H. inversion H as [e w1 Hin | input w1 e s2 Hin Hup | input w1 g' s2 Hin Hup];
    subst; destruct (createInputRun_shape Hin) as (new & Hcalls & Hout & Hshape);
    simpl; rewrite ?Hcalls, ?Hout.
  - exists new. split; [reflexivity |]. apply ShapeNoInput. exact Hshape.
  - inversion Hshape; subst.
    eexists. rewrite <- app_assoc. split; [reflexivity |].
    simpl. apply ShapeUpdateFailed. assumption.
  - inversion Hshape; subst.
    eexists. rewrite <- app_assoc. split; [reflexivity |].
    simpl. apply ShapeUpdated. assumption.
Qed.

Lemma createInput_shape c w :
  gcs.calls (snd (gcs.createInput c w))
  = (gcs.calls w ++ gcs.issued (gcs.createInput c) w)%list
  /\ InputShape c (fst (gcs.createInput c w)) (gcs.issued (gcs.createInput c) w).
Proof.
  destruct (createInputRun_shape (createInput_run c w)) as (new & Hcalls & _ & Hshape).
  rewrite (issued_new _ _ _ Hcalls). auto.
Qed.

Lemma Exec_shape c w :
  gcs.calls (snd (gcs.Exec Success c w))
  = (gcs.calls w ++ gcs.issued (gcs.Exec Success c) w)%list
  /\ ExecShape Success c (gcs.out w) (fst (gcs.Exec Success c w))
       (gcs.issued (gcs.Exec Success c) w) (gcs.out (snd (gcs.Exec Success c w))).
Proof.
  destruct (ExecRun_shape (Exec_run c w)) as (new & Hcalls & Hshape).
  rewrite (issued_new _ _ _ Hcalls). auto.
Qed.

(** With no service ID, [createInput] and [Exec] leave the world as it is. *)
Lemma unresolved_world c w :
  resolved c = false ->
  gcs.createInput c w = (inl ErrNoServiceID, w)
  /\ gcs.Exec Success c w = (inl ErrNoServiceID, w).
Proof.
  intros H. unfold gcs.Exec, gcs.bind, gcs.createInput.
  unfold resolved in H.
  destruct (manifest.ServiceID (gcs.manifest c)) as [serviceID source]; simpl in H.
  destruct (manifest.Source_eqb source manifest.SourceUndefined);
    [split; reflexivity | discriminate].
Qed.

End Runs.

(** ** The merge of flags over the fetched endpoint *)

Section Merge.

Lemma proj_assign_skip {A B} (proj : fastly.UpdateGCSInput -> B)
  (o : Optional A) (set : A -> fastly.UpdateGCSInput -> fastly.UpdateGCSInput)
  (i : fastly.UpdateGCSInput) :
  (forall v j, proj (set v j) = proj j) ->
  proj (gcs.assign_if o set i) = proj i.
Proof. intros H. unfold gcs.assign_if. destruct (Valid o); auto. Qed.

Lemma proj_assign_hit {A} (proj : fastly.UpdateGCSInput -> A)
  (o : Optional A) (set : A -> fastly.UpdateGCSInput -> fastly.UpdateGCSInput)
  (i : fastly.UpdateGCSInput) :
  (forall v j, proj (set v j) = v) ->
  proj (gcs.assign_if o set i) = if Valid o then Value o else proj i.
Proof. intros H. unfold gcs.assign_if. destruct (Valid o); auto. Qed.

(** Push the projection [p] through the chain of conditional assignments. *)
Ltac project p :=
  unfold gcs.mergeInput; cbv zeta;
  repeat first
    [ rewrite (proj_assign_skip p) by (intros; reflexivity)
    | rewrite (proj_assign_hit p) by (intros; reflexivity) ];
  reflexivity.

Variables (c : gcs.UpdateCommand) (g : fastly.GCS).

Lemma merge_Service : fastly.Service (gcs.mergeInput c g) = fastly.GCS_ServiceID g.
Proof. project fastly.Service. Qed.

Lemma merge_Version : fastly.Version (gcs.mergeInput c g) = fastly.GCS_Version g.
Proof. project fastly.Version. Qed.

Lemma merge_Name : fastly.Name (gcs.mergeInput c g) = fastly.GCS_Name g.
Proof. project fastly.Name. Qed.

Lemma merge_NewName :
  fastly.NewName (gcs.mergeInput c g)
  = if Valid (gcs.NewName c) then Value (gcs.NewName c) else fastly.GCS_Name g.
Proof. project fastly.NewName. Qed.

Lemma merge_Bucket :
  fastly.Bucket (gcs.mergeInput c g)
  = if Valid (gcs.Bucket c) then Value (gcs.Bucket c) else fastly.GCS_Bucket g.
Proof. project fastly.Bucket. Qed.

Lemma merge_User :
  fastly.User (gcs.mergeInput c g)
  = if Valid (gcs.User c) then Value (gcs.User c) else fastly.GCS_User g.
Proof. project fastly.User. Qed.

Lemma merge_SecretKey :
  fastly.SecretKey (gcs.mergeInput c g)
  = if Valid (gcs.SecretKey c) then Value (gcs.SecretKey c)
    else fastly.GCS_SecretKey g.
Proof. project fastly.SecretKey. Qed.

Lemma merge_Path :
  fastly.Path (gcs.mergeInput c g)
  = if Valid (gcs.Path c) then Value (gcs.Path c) else fastly.GCS_Path g.
Proof. project fastly.Path. Qed.

Lemma merge_Period :
  fastly.Period (gcs.mergeInput c g)
  = if Valid (gcs.Period c) then Value (gcs.Period c) else fastly.GCS_Period g.
Proof. project fastly.Period. Qed.

Lemma merge_FormatVersion :
  fastly.FormatVersion (gcs.mergeInput c g)
  = if Valid (gcs.FormatVersion c) then Value (gcs.FormatVersion c)
    else fastly.GCS_FormatVersion g.
Proof. project fastly.FormatVersion. Qed.

Lemma merge_GzipLevel :
  fastly.GzipLevel (gcs.mergeInput c g)
  = if Valid (gcs.GzipLevel c) then Value (gcs.GzipLevel c)
    else fastly.GCS_GzipLevel g.
Proof. project fastly.GzipLevel. Qed.

Lemma merge_Format :
  fastly.Format (gcs.mergeInput c g)
  = if Valid (gcs.Format c) then Value (gcs.Format c) else fastly.GCS_Format g.
Proof. project fastly.Format. Qed.

Lemma merge_ResponseCondition :
  fastly.ResponseCondition (gcs.mergeInput c g)
  = if Valid (gcs.ResponseCondition c) then Value (gcs.ResponseCondition c)
    else fastly.GCS_ResponseCondition g.
Proof. project fastly.ResponseCondition. Qed.

Lemma merge_TimestampFormat :
  fastly.TimestampFormat (gcs.mergeInput c g)
  = if Valid (gcs.TimestampFormat c) then Value (gcs.TimestampFormat c)
    else fastly.GCS_TimestampFormat g.
Proof. project fastly.TimestampFormat. Qed.

Lemma merge_MessageType :
  fastly.MessageType (gcs.mergeInput c g)
  = if Valid (gcs.MessageType c) then Value (gcs.MessageType c)
    else fastly.GCS_MessageType g.
Proof. project fastly.MessageType. Qed.

Lemma merge_Placement :
  fastly.Placement (gcs.mergeInput c g)
  = if Valid (gcs.Placement c) then Value (gcs.Placement c)
    else fastly.GCS_Placement g.
Proof. project fastly.Placement. Qed.

End Merge.

Lemma merged_if {A} (o : Optional A) (fetched : A) :
  merged o fetched (if Valid o then Value o else fetched).
Proof. unfold merged. destruct (Valid o); split; congruence. Qed.

Lemma mergeInput_merged c g : mergedInput c g (gcs.mergeInput c g).
Proof.
  unfold mergedInput.
  rewrite merge_NewName, merge_Bucket, merge_User, merge_SecretKey, merge_Path,
    merge_Period, merge_FormatVersion, merge_GzipLevel, merge_Format,
    merge_ResponseCondition, merge_TimestampFormat, merge_MessageType,
    merge_Placement.
  repeat apply conj; apply merged_if.
Qed.

(** ** Properties of [createInput] and [Exec] *)

Section Claims.

Context {S : Type} {client : fastly.Client S}.
Variable Success : Writer -> string -> list Arg -> Writer.

Abbreviation World := (gcs.World (S := S)).

(** [Exec] continues from the world [createInput] leaves: it stops there on
    an error, and otherwise adds exactly one [UpdateGCS] call carrying the
    input [createInput] built. *)
Lemma Exec_after_createInput c (w : World) :
  match fst (gcs.createInput c w) with
  | inl e => gcs.Exec Success c w = (inl e, snd (gcs.createInput c w))
  | inr input =>
      exists r,
        gcs.issued (gcs.Exec Success c) w
        = (gcs.issued (gcs.createInput c) w ++ [fastly.CallUpdateGCS input r])%list
  end.
Proof.
  destruct (createInput_shape c w) as [Hcalls _].
  pose proof (Exec_eq Success c w) as Heq.
  destruct (gcs.createInput c w) as [[e | input] w1]; simpl in *; [exact Heq |].
  destruct (fastly.UpdateGCS input (gcs.client_state w1)) as [[e | g'] s2];
    eexists; apply issued_new; rewrite Heq; simpl;
    rewrite Hcalls, <- app_assoc; reflexivity.
Qed.

(** C1. For each of the thirteen optional fields (new-name, bucket, user,
    secret-key, path, period, format-version, gzip-level, format,
    response-condition, timestamp-format, message-type, placement): when
    [createInput] returns an input, it made one [GetGCS] call, which
    returned an endpoint [g], and the field of the input is the value [g]
    reports if the optional wrapper is not marked present, and the
    wrapper's value if it is. *)
Theorem createInput_merges_optional_fields c (w : World) input w1 :
  gcs.createInput c w = (inr input, w1) ->
  exists g,
    gcs.issued (gcs.createInput c) w = [fastly.CallGetGCS (getRequest c) (inr g)]
    /\ mergedInput c g input.
Proof.
  intros H. destruct (createInput_shape c w) as [_ Hshape].
  rewrite H in Hshape. simpl in Hshape.
  inversion Hshape as [ | | g Hres Hin Hnew]; subst.
  exists g. split; [reflexivity | apply mergeInput_merged].
Qed.

(** C2. When no service ID is resolved (the manifest source is undefined),
    [createInput] returns [ErrNoServiceID] and the world is untouched: no
    client call, neither [GetGCS] nor [UpdateGCS], is made by it or by
    [Exec]. *)
Theorem no_service_id_fails_before_any_call c (w : World) :
  snd (manifest.ServiceID (gcs.manifest c)) = manifest.SourceUndefined ->
  gcs.createInput c w = (inl ErrNoServiceID, w)
  /\ gcs.issued (gcs.createInput c) w = []
  /\ gcs.Exec Success c w = (inl ErrNoServiceID, w)
  /\ gcs.issued (gcs.Exec Success c) w = [].
Proof.
  intros H.
  assert (Hres : resolved c = false) by (unfold resolved; rewrite H; reflexivity).
  destruct (unresolved_world Success c w Hres) as [Hin Hexec].
  repeat split; try assumption; apply issued_new;
    rewrite ?Hin, ?Hexec; simpl; rewrite app_nil_r; reflexivity.
Qed.

(** C3. [Exec] returns nil exactly when both client calls were made and
    succeeded; it returns an error [e] exactly when [e] is the first error
    produced (the validation error, or the first error a client call
    returned); nothing is retried: no call follows a failed one and each
    method is called at most once; and the exit code is 0 exactly for a
    nil return, non-zero for every error. *)
Theorem Exec_returns_first_error c (w : World) :
  (fst (gcs.Exec Success c w) = inr tt <->
   exists g g',
     gcs.issued (gcs.Exec Success c) w
     = [fastly.CallGetGCS (getRequest c) (inr g);
        fastly.CallUpdateGCS (gcs.mergeInput c g) (inr g')])
  /\ (forall e,
        fst (gcs.Exec Success c w) = inl e <->
        firstError c (gcs.issued (gcs.Exec Success c) w) = Some e)
  /\ forallb fastly.Call_succeeded (removelast (gcs.issued (gcs.Exec Success c) w))
     = true
  /\ length (filter fastly.is_GetGCS (gcs.issued (gcs.Exec Success c) w)) <= 1
  /\ length (filter fastly.is_UpdateGCS (gcs.issued (gcs.Exec Success c) w)) <= 1
  /\ (gcs.exitCode (fst (gcs.Exec Success c w)) = 0%Z <->
      fst (gcs.Exec Success c w) = inr tt)
  /\ (forall e,
        fst (gcs.Exec Success c w) = inl e ->
        gcs.exitCode (fst (gcs.Exec Success c w)) <> 0%Z).
Proof.
  destruct (Exec_shape Success c w) as [_ Hshape].
  unfold firstError.
  inversion Hshape as [e new Hin Hr Hnew Ho | g e Hres Hr Hnew Ho | g g' Hres Hr Hnew Ho].
  - inversion Hin as [Hres He Hn | e' Hres He Hn | ]; subst; rewrite Hres; simpl.
    + repeat split; try lia; try discriminate; try congruence.
      intros (g & g' & Habs); discriminate.
    + repeat split; try lia; try discriminate; try congruence.
      intros (g & g' & Habs); discriminate.
  - rewrite Hres; simpl.
    repeat split; try lia; try discriminate; try congruence.
    intros (g0 & g' & Habs); discriminate.
  - rewrite Hres; simpl.
    repeat split; try lia; try discriminate; try congruence.
    exists g, g'. reflexivity.
Qed.

(** The client calls of an invocation: none, or one [GetGCS], or one
    [GetGCS] that succeeded followed by one [UpdateGCS]. *)
Lemma Exec_call_shapes c (w : World) :
  gcs.issued (gcs.Exec Success c) w = []
  \/ (exists r,
        gcs.issued (gcs.Exec Success c) w
        = [fastly.CallGetGCS (getRequest c) r])
  \/ (exists g r,
        gcs.issued (gcs.Exec Success c) w
        = [fastly.CallGetGCS (getRequest c) (inr g);
           fastly.CallUpdateGCS (gcs.mergeInput c g) r]).
Proof.
  destruct (Exec_shape Success c w) as [_ Hshape].
  inversion Hshape as [e new Hin Hr Hnew Ho | g e Hres Hr Hnew Ho | g g' Hres Hr Hnew Ho].
  - inversion Hin; subst; eauto.
  - eauto.
  - eauto.
Qed.

(** C4 (amended). An invocation makes at most two client calls: nothing,
    or one [GetGCS], or one [GetGCS] that succeeded followed by one
    [UpdateGCS]; it never issues a third call, nor the same call twice. *)
Theorem Exec_at_most_two_calls c (w : World) :
  length (gcs.issued (gcs.Exec Success c) w) <= 2
  /\ length (filter fastly.is_GetGCS (gcs.issued (gcs.Exec Success c) w)) <= 1
  /\ length (filter fastly.is_UpdateGCS (gcs.issued (gcs.Exec Success c) w)) <= 1
  /\ (gcs.issued (gcs.Exec Success c) w = []
      \/ (exists r,
            gcs.issued (gcs.Exec Success c) w
            = [fastly.CallGetGCS (getRequest c) r])
      \/ (exists g r,
            gcs.issued (gcs.Exec Success c) w
            = [fastly.CallGetGCS (getRequest c) (inr g);
               fastly.CallUpdateGCS (gcs.mergeInput c g) r])).
Proof.
  pose proof (Exec_call_shapes c w) as Hcases.
  repeat split; try exact Hcases;
    destruct Hcases as [H | [(r & H) | (g & r & H)]]; rewrite H; simpl; lia.
Qed.

(** C8. When [--new-name] is not set, the [NewName] of the merged input is
    the [Name] of the endpoint [GetGCS] returned, and that same input is
    what [Exec] sends to [UpdateGCS]: the endpoint is asked to keep its
    current name. *)
Theorem unset_new_name_keeps_fetched_name c (w : World) input w1 :
  gcs.createInput c w = (inr input, w1) ->
  Valid (gcs.NewName c) = false ->
  exists g r,
    gcs.issued (gcs.Exec Success c) w
    = [fastly.CallGetGCS (getRequest c) (inr g); fastly.CallUpdateGCS input r]
    /\ fastly.Name input = fastly.GCS_Name g
    /\ fastly.NewName input = fastly.GCS_Name g.
Proof.
  intros H Hunset.
  destruct (createInput_shape c w) as [_ Hshape].
  pose proof (Exec_after_createInput c w) as Hexec.
  rewrite H in Hshape, Hexec. simpl in Hshape, Hexec.
  destruct Hexec as [r Hexec].
  inversion Hshape as [ | | g Hres Hin Hnew]; subst.
  rewrite <- Hnew in Hexec.
  exists g, r. split; [exact Hexec |].
  rewrite merge_Name, merge_NewName, Hunset. split; reflexivity.
Qed.

(** C9. When the [GetGCS] call returns an error [e], [createInput] returns
    [e], so does [Exec], and that failed call is the only client call of
    the invocation: [UpdateGCS] is never invoked. *)
Theorem failed_fetch_stops_the_update c (w : World) i e :
  In (fastly.CallGetGCS i (inl e)) (gcs.issued (gcs.Exec Success c) w) ->
  fst (gcs.createInput c w) = inl e
  /\ fst (gcs.Exec Success c w) = inl e
  /\ gcs.issued (gcs.Exec Success c) w = [fastly.CallGetGCS (getRequest c) (inl e)]
  /\ filter fastly.is_UpdateGCS (gcs.issued (gcs.Exec Success c) w) = [].
Proof.
  intros Hin.
  destruct (createInput_shape c w) as [_ Hshape].
  pose proof (Exec_after_createInput c w) as Hexec.
  destruct (fst (gcs.createInput c w)) as [e' | input] eqn:Hres.
  - assert (Hiss : gcs.issued (gcs.Exec Success c) w
                   = gcs.issued (gcs.createInput c) w)
      by (unfold gcs.issued; rewrite Hexec; reflexivity).
    rewrite Hexec, Hiss in *. simpl.
    inversion Hshape as [Hr He Hnew | e0 Hr He Hnew | ]; subst;
      rewrite <- Hnew in *; simpl in Hin.
    + contradiction.
    + destruct Hin as [Heq | []]. inversion Heq; subst. auto.
  - destruct Hexec as [r Hexec]. rewrite Hexec in Hin.
    inversion Hshape as [ | | g Hr Hi Hnew]; subst.
    rewrite <- Hnew in Hin. simpl in Hin.
    destruct Hin as [Heq | [Heq | []]]; discriminate.
Qed.

(** C10. After a successful invocation the writer holds what [text.Success]
    makes of the format and of the name, service ID and version of the
    object [UpdateGCS] returned; the command's own flag values do not
    enter the message, and after a rename the name printed is the one the
    response reports. *)
Theorem success_message_reports_the_response c (w w' : World) :
  gcs.Exec Success c w = (inr tt, w') ->
  exists g g',
    gcs.issued (gcs.Exec Success c) w
    = [fastly.CallGetGCS (getRequest c) (inr g);
       fastly.CallUpdateGCS (gcs.mergeInput c g) (inr g')]
    /\ gcs.out w'
       = Success (gcs.out w)
           "Updated GCS logging endpoint %s (service %s version %d)"
           [ArgString (fastly.GCS_Name g');
            ArgString (fastly.GCS_ServiceID g');
            ArgInt (fastly.GCS_Version g')].
Proof.
  intros H. destruct (Exec_shape Success c w) as [_ Hshape].
  rewrite H in Hshape. simpl in Hshape.
  inversion Hshape as [ | | g g' Hres Hnew Ho]; subst.
  exists g, g'. split; reflexivity.
Qed.

End Claims.

(** ** The confirmation message *)

Lemma string_app_assoc (a b c : string) : (a ++ b) ++ c = a ++ b ++ c.
Proof. induction a as [ | ch a IH]; simpl; [reflexivity | rewrite IH; reflexivity]. Qed.

Lemma Sprintf_confirmation g :
  Sprintf "Updated GCS logging endpoint %s (service %s version %d)"
    [ArgString (fastly.GCS_Name g);
     ArgString (fastly.GCS_ServiceID g);
     ArgInt (fastly.GCS_Version g)]
  = confirmation g.
Proof. reflexivity. Qed.

Lemma confirmation_contains g :
  contains (fastly.GCS_Name g) (confirmation g)
  /\ contains (fastly.GCS_ServiceID g) (confirmation g)
  /\ contains (Itoa (fastly.GCS_Version g)) (confirmation g).
Proof.
  unfold contains, confirmation. repeat apply conj.
  - exists "Updated GCS logging endpoint ". eexists. reflexivity.
  - exists ("Updated GCS logging endpoint " ++ fastly.GCS_Name g ++ " (service ").
    eexists. rewrite !string_app_assoc. reflexivity.
  - exists ("Updated GCS logging endpoint " ++ fastly.GCS_Name g
            ++ " (service " ++ fastly.GCS_ServiceID g ++ " version ").
    exists ")". rewrite !string_app_assoc. reflexivity.
Qed.

Section Confirmation.

Context {S : Type} {client : fastly.Client S}.

(** C5. When the [UpdateGCS] call of an invocation succeeds, returning the
    endpoint [g'], [Exec] appends to the output one formatted message,
    and the name, the service ID and the decimal version number of [g']
    all occur in it. *)
Theorem successful_update_prints_confirmation
  c (w : gcs.World (S := S)) i g' :
  In (fastly.CallUpdateGCS i (inr g')) (gcs.issued (gcs.Exec text.Success c) w) ->
  fst (gcs.Exec text.Success c w) = inr tt
  /\ gcs.out (snd (gcs.Exec text.Success c w)) = gcs.out w ++ confirmation g'
  /\ contains (fastly.GCS_Name g') (confirmation g')
  /\ contains (fastly.GCS_ServiceID g') (confirmation g')
  /\ contains (Itoa (fastly.GCS_Version g')) (confirmation g').
Proof.
  intros Hin. destruct (Exec_shape text.Success c w) as [_ Hshape].
  remember (gcs.issued (gcs.Exec text.Success c) w) as new eqn:Hnew.
  remember (fst (gcs.Exec text.Success c w)) as r eqn:Hr.
  remember (gcs.out (snd (gcs.Exec text.Success c w))) as o eqn:Ho.
  clear Hnew Hr Ho.
  destruct Hshape as [e new Hi | g e Hres | g g0 Hres].
  - inversion Hi; subst; simpl in Hin;
      [contradiction | destruct Hin as [Heq | []]; discriminate].
  - simpl in Hin. destruct Hin as [Heq | [Heq | []]]; discriminate.
  - simpl in Hin. destruct Hin as [Heq | [Heq | []]]; [discriminate |].
    inversion Heq; subst g0.
    split; [reflexivity |].
    split; [unfold successOutput, text.Success; rewrite Sprintf_confirmation;
            reflexivity |].
    apply confirmation_contains.
Qed.

End Confirmation.

(** ** Where the service ID comes from *)

Section ServiceID.

Context {S : Type} {client : fastly.Client S}.

(** For a command as it stands after parsing: the service ID placed in the
    [GetGCS] request is the flag part of the manifest when it is not
    empty, otherwise the file part when that is not empty; resolution
    fails, with [ErrNoServiceID] and no request, when both are empty. *)
Lemma createInput_service_id c (w : gcs.World (S := S)) :
  (snd (manifest.ServiceID (gcs.manifest c)) = manifest.SourceUndefined <->
   flagServiceID c = EmptyString /\ fileServiceID c = EmptyString)
  /\ match flagServiceID c =? EmptyString, fileServiceID c =? EmptyString with
     | false, _ =>
         exists r,
           gcs.issued (gcs.createInput c) w
           = [fastly.CallGetGCS
                (fastly.mkGetGCSInput (flagServiceID c)
                   (gcs.EndpointName c) (gcs.Version c)) r]
     | true, false =>
         exists r,
           gcs.issued (gcs.createInput c) w
           = [fastly.CallGetGCS
                (fastly.mkGetGCSInput (fileServiceID c)
                   (gcs.EndpointName c) (gcs.Version c)) r]
     | true, true =>
         gcs.createInput c w = (inl ErrNoServiceID, w)
         /\ gcs.issued (gcs.createInput c) w = []
     end.
Proof.
  destruct (createInput_shape c w) as [_ Hshape].
  pose proof (unresolved_world text.Success c w) as Hworld.
  assert (Hsrc : snd (manifest.ServiceID (gcs.manifest c)) = manifest.SourceUndefined
                 <-> resolved c = false).
  { unfold resolved.
    destruct (snd (manifest.ServiceID (gcs.manifest c))); simpl;
      split; congruence. }
  assert (Hres : resolved c
                 = negb ((flagServiceID c =? EmptyString)
                         && (fileServiceID c =? EmptyString))).
  { unfold resolved, manifest.ServiceID, flagServiceID, fileServiceID.
    destruct (_ =? EmptyString); [destruct (_ =? EmptyString) |]; reflexivity. }
  assert (Hreq : getRequest c
                 = fastly.mkGetGCSInput
                     (if flagServiceID c =? EmptyString
                      then fileServiceID c
                      else flagServiceID c)
                     (gcs.EndpointName c) (gcs.Version c)).
  { unfold getRequest, manifest.ServiceID, flagServiceID, fileServiceID.
    destruct (_ =? EmptyString); [| reflexivity].
    destruct (String.eqb_spec
                (manifest.File_ServiceID (manifest.file (gcs.manifest c)))
                EmptyString);
      simpl; congruence. }
  rewrite Hsrc, Hres. clear Hsrc.
  rewrite <- !String.eqb_eq.
  destruct (flagServiceID c =? EmptyString);
    [destruct (fileServiceID c =? EmptyString) |];
    simpl in *.
  - split; [tauto |].
    destruct (Hworld Hres) as [Hin _]. split; [exact Hin |].
    apply issued_new. rewrite Hin. simpl. rewrite app_nil_r. reflexivity.
  - split; [split; [discriminate | intros [_ Habs]; discriminate] |].
    inversion Hshape; try rewrite Hreq in *; [congruence | eauto ..].
  - split; [split; [discriminate | intros [Habs _]; discriminate] |].
    inversion Hshape; try rewrite Hreq in *; [congruence | eauto ..].
Qed.

End ServiceID.

(** ** Required flags *)

Section Parsing.

Variable C : Type.
Implicit Types (flags : list (kingpin.FlagClause C)) (f : kingpin.FlagClause C).

Lemma resolve_elements flags args elements :
  kingpin.resolve flags args = inr elements ->
  forall f v, In (f, v) elements ->
  exists n, In (n, v) args /\ find (kingpin.matches n) flags = Some f.
Proof.
  revert elements. induction args as [ | [n v] args IH]; simpl; intros elements H f0 v0 Hin.
  - inversion H; subst. contradiction.
  - destruct (find (kingpin.matches n) flags) as [f | ] eqn:Hfind; [| discriminate].
    destruct (kingpin.resolve flags args) as [e | els]; [discriminate |].
    inversion H; subst. destruct Hin as [Heq | Hin].
    + inversion Heq; subst. exists n. auto.
    + destruct (IH els eq_refl f0 v0 Hin) as (n' & Hn' & Hf'). exists n'. auto.
Qed.

Lemma validateRequired_given flags elements f :
  kingpin.validateRequired flags elements = None ->
  In f flags -> kingpin.required f = true ->
  kingpin.given elements f = true.
Proof.
  unfold kingpin.validateRequired. intros H Hin Hreq.
  destruct (filter _ flags) as [ | f' rest] eqn:Hfilter; [| discriminate].
  destruct (kingpin.given elements f) eqn:Hgiven; [reflexivity |].
  assert (Hmem : In f (filter (fun f => kingpin.required f
                                         && negb (kingpin.given elements f)) flags)).
  { apply filter_In. rewrite Hreq, Hgiven. auto. }
  rewrite Hfilter in Hmem. contradiction.
Qed.

(** A command line that parses gives every required flag, under its long
    or its short name. *)
Lemma Parse_required flags args (c c' : C) f :
  kingpin.Parse flags args c = inr c' ->
  In f flags -> kingpin.required f = true ->
  exists n v f',
    In (n, v) args /\ find (kingpin.matches n) flags = Some f'
    /\ kingpin.name f' = kingpin.name f.
Proof.
  unfold kingpin.Parse. intros H Hin Hreq.
  destruct (kingpin.resolve flags args) as [e | elements] eqn:Hres; [discriminate |].
  destruct (kingpin.setValues elements [] c) as [e | c1]; [discriminate |].
  destruct (kingpin.validateRequired flags elements) eqn:Hval; [discriminate |].
  pose proof (validateRequired_given _ _ f Hval Hin Hreq) as Hgiven.
  unfold kingpin.given in Hgiven. apply existsb_exists in Hgiven.
  destruct Hgiven as ([f' v] & Hel & Hname). simpl in Hname.
  apply String.eqb_eq in Hname.
  destruct (resolve_elements _ _ Hres f' v Hel) as (n & Hn & Hfind).
  exists n, v, f'. auto.
Qed.

End Parsing.

Ltac unfold_flags H :=
  cbv [gcs.NewUpdateCommand snd find kingpin.matches kingpin.name
       kingpin.shorthand kingpin.required kingpin.Flag kingpin.Short
       kingpin.Required kingpin.Action kingpin.StringVar kingpin.IntVar
       kingpin.UintVar kingpin.Uint8Var] in H.

(** ** The properties at work on the mock *)

Lemma createInput_merges_optional_fields_witness :
  gcs.createInput mock.rename_cmd (mock.world false)
  = (inr mock.rename_input,
     snd (gcs.createInput mock.rename_cmd (mock.world false)))
  /\ exists g,
       gcs.issued (gcs.createInput mock.rename_cmd) (mock.world false)
       = [fastly.CallGetGCS (getRequest mock.rename_cmd) (inr g)]
       /\ mergedInput mock.rename_cmd g mock.rename_input.
Proof.
  split; [reflexivity |].
  apply (createInput_merges_optional_fields mock.rename_cmd (mock.world false)
           (w1 := snd (gcs.createInput mock.rename_cmd (mock.world false)))).
  reflexivity.
Defined.

Lemma no_service_id_fails_before_any_call_witness :
  snd (manifest.ServiceID (gcs.manifest (mock.plain_cmd EmptyString "logs")))
  = manifest.SourceUndefined
  /\ gcs.createInput (mock.plain_cmd EmptyString "logs") (mock.world false)
     = (inl ErrNoServiceID, mock.world false)
  /\ gcs.issued (gcs.createInput (mock.plain_cmd EmptyString "logs")) (mock.world false) = []
  /\ gcs.Exec text.Success (mock.plain_cmd EmptyString "logs") (mock.world false)
     = (inl ErrNoServiceID, mock.world false)
  /\ gcs.issued (gcs.Exec text.Success (mock.plain_cmd EmptyString "logs")) (mock.world false)
     = [].
Proof.
  split; [reflexivity |].
  apply (no_service_id_fails_before_any_call text.Success
           (mock.plain_cmd EmptyString "logs") (mock.world false)).
  reflexivity.
Defined.

(** C4, as stated, fails: the claim is that an invocation makes at most
    one request, but a
    successful update is a [GetGCS] followed by an [UpdateGCS]. *)
Lemma update_issues_two_requests :
  gcs.issued (gcs.Exec text.Success mock.rename_cmd) (mock.world false)
  = [fastly.CallGetGCS (fastly.mkGetGCSInput "svc1" "logs" 3) (inr mock.endpoint);
     fastly.CallUpdateGCS mock.rename_input (inr mock.renamed)]
  /\ ~ length (gcs.issued (gcs.Exec text.Success mock.rename_cmd) (mock.world false))
       <= 1.
Proof.
  split; [reflexivity |].
  intros H. vm_compute in H. lia.
Qed.

Lemma successful_update_prints_confirmation_witness :
  In (fastly.CallUpdateGCS mock.rename_input (inr mock.renamed))
    (gcs.issued (gcs.Exec text.Success mock.rename_cmd) (mock.world false))
  /\ fst (gcs.Exec text.Success mock.rename_cmd (mock.world false)) = inr tt
  /\ gcs.out (snd (gcs.Exec text.Success mock.rename_cmd (mock.world false)))
     = gcs.out (mock.world false) ++ confirmation mock.renamed
  /\ contains (fastly.GCS_Name mock.renamed) (confirmation mock.renamed)
  /\ contains (fastly.GCS_ServiceID mock.renamed) (confirmation mock.renamed)
  /\ contains (Itoa (fastly.GCS_Version mock.renamed)) (confirmation mock.renamed).
Proof.
  assert (H : In (fastly.CallUpdateGCS mock.rename_input (inr mock.renamed))
                (gcs.issued (gcs.Exec text.Success mock.rename_cmd)
                   (mock.world false)))
    by (right; left; reflexivity).
  split; [exact H |].
  exact (successful_update_prints_confirmation mock.rename_cmd (mock.world false)
           mock.rename_input mock.renamed H).
Defined.

Lemma unset_new_name_keeps_fetched_name_witness :
  gcs.createInput (mock.plain_cmd "svc1" "logs") (mock.world false)
  = (inr mock.plain_input,
     snd (gcs.createInput (mock.plain_cmd "svc1" "logs") (mock.world false)))
  /\ Valid (gcs.NewName (mock.plain_cmd "svc1" "logs")) = false
  /\ exists g r,
       gcs.issued (gcs.Exec text.Success (mock.plain_cmd "svc1" "logs"))
         (mock.world false)
       = [fastly.CallGetGCS (getRequest (mock.plain_cmd "svc1" "logs")) (inr g);
          fastly.CallUpdateGCS mock.plain_input r]
       /\ fastly.Name mock.plain_input = fastly.GCS_Name g
       /\ fastly.NewName mock.plain_input = fastly.GCS_Name g.
Proof.
  split; [reflexivity |]. split; [reflexivity |].
  apply (unset_new_name_keeps_fetched_name text.Success
           (mock.plain_cmd "svc1" "logs") (mock.world false)
           (w1 := snd (gcs.createInput (mock.plain_cmd "svc1" "logs")
                         (mock.world false))));
    reflexivity.
Defined.

Lemma failed_fetch_stops_the_update_witness :
  In (fastly.CallGetGCS (fastly.mkGetGCSInput "svc1" "logs" 3)
        (inl (APIError "404 Not Found")))
    (gcs.issued (gcs.Exec text.Success mock.rename_cmd) mock.empty_world)
  /\ fst (gcs.createInput mock.rename_cmd mock.empty_world)
     = inl (APIError "404 Not Found")
  /\ fst (gcs.Exec text.Success mock.rename_cmd mock.empty_world)
     = inl (APIError "404 Not Found")
  /\ gcs.issued (gcs.Exec text.Success mock.rename_cmd) mock.empty_world
     = [fastly.CallGetGCS (getRequest mock.rename_cmd)
          (inl (APIError "404 Not Found"))]
  /\ filter fastly.is_UpdateGCS
       (gcs.issued (gcs.Exec text.Success mock.rename_cmd) mock.empty_world)
     = [].
Proof.
  assert (H : In (fastly.CallGetGCS (fastly.mkGetGCSInput "svc1" "logs" 3)
                    (inl (APIError "404 Not Found")))
                (gcs.issued (gcs.Exec text.Success mock.rename_cmd)
                   mock.empty_world))
    by (left; reflexivity).
  split; [exact H |].
  exact (failed_fetch_stops_the_update text.Success mock.rename_cmd
           mock.empty_world _ _ H).
Defined.

Lemma success_message_reports_the_response_witness :
  gcs.Exec text.Success mock.rename_cmd (mock.world false)
  = (inr tt, snd (gcs.Exec text.Success mock.rename_cmd (mock.world false)))
  /\ exists g g',
       gcs.issued (gcs.Exec text.Success mock.rename_cmd) (mock.world false)
       = [fastly.CallGetGCS (getRequest mock.rename_cmd) (inr g);
          fastly.CallUpdateGCS (gcs.mergeInput mock.rename_cmd g) (inr g')]
       /\ gcs.out (snd (gcs.Exec text.Success mock.rename_cmd (mock.world false)))
          = text.Success (gcs.out (mock.world false))
              "Updated GCS logging endpoint %s (service %s version %d)"
              [ArgString (fastly.GCS_Name g');
               ArgString (fastly.GCS_ServiceID g');
               ArgInt (fastly.GCS_Version g')].
Proof.
  split; [reflexivity |].
  apply (success_message_reports_the_response text.Success mock.rename_cmd
           (mock.world false)
           (w' := snd (gcs.Exec text.Success mock.rename_cmd (mock.world false)))).
  reflexivity.
Defined.

(** ** Further properties of [createInput] and [Exec] *)

Section Further.

Context {S : Type} {client : fastly.Client S}.
Variable Success : Writer -> string -> list Arg -> Writer.

(** X1. [createInput] writes nothing to the output, makes at most one
    client call, and never calls [UpdateGCS]. *)
Theorem createInput_only_fetches c (w : gcs.World (S := S)) :
  gcs.out (snd (gcs.createInput c w)) = gcs.out w
  /\ length (gcs.issued (gcs.createInput c) w) <= 1
  /\ filter fastly.is_UpdateGCS (gcs.issued (gcs.createInput c) w) = [].
Proof.
  destruct (createInputRun_shape (createInput_run c w)) as (new & Hcalls & Hout & Hshape).
  rewrite (issued_new _ _ _ Hcalls). split; [exact Hout |].
  inversion Hshape; simpl; auto.
Qed.

(** X2. When [Exec] returns an error, whichever step produced it, the
    output is left exactly as it was: the success message is the only
    thing [Exec] ever writes. *)
Theorem Exec_error_writes_nothing c (w : gcs.World (S := S)) e :
  fst (gcs.Exec Success c w) = inl e ->
  gcs.out (snd (gcs.Exec Success c w)) = gcs.out w.
Proof.
  intros H. destruct (Exec_shape Success c w) as [_ Hshape].
  rewrite H in Hshape.
  inversion Hshape; auto.
Qed.

(** X3. Every [UpdateGCS] request is addressed to the endpoint as [GetGCS]
    reported it: its service ID, version and name are those of the fetched
    object, whatever [--service-id], [--version], [--name] or any other
    flag said. *)
Theorem update_request_addresses_fetched_endpoint c (w : gcs.World (S := S)) i r :
  In (fastly.CallUpdateGCS i r) (gcs.issued (gcs.Exec Success c) w) ->
  exists g,
    gcs.issued (gcs.Exec Success c) w
    = [fastly.CallGetGCS (getRequest c) (inr g); fastly.CallUpdateGCS i r]
    /\ fastly.Service i = fastly.GCS_ServiceID g
    /\ fastly.Version i = fastly.GCS_Version g
    /\ fastly.Name i = fastly.GCS_Name g.
Proof.
  intros Hin.
  destruct (Exec_call_shapes Success c w) as [H | [(r0 & H) | (g & r0 & H)]];
    rewrite H in *; simpl in Hin.
  - contradiction.
  - destruct Hin as [Heq | []]. discriminate.
  - destruct Hin as [Heq | [Heq | []]]; [discriminate |].
    inversion Heq; subst. exists g.
    rewrite merge_Service, merge_Version, merge_Name. auto.
Qed.

Lemma noOptionalSet_resubmit c g :
  noOptionalSet c = true -> gcs.mergeInput c g = resubmit g.
Proof.
  unfold noOptionalSet. intros H. apply negb_true_iff in H.
  repeat (apply orb_false_elim in H;
          let H' := fresh "Hv" in destruct H as [H H']).
  unfold gcs.mergeInput, gcs.assign_if. cbv zeta.
  repeat match goal with Hv : Valid _ = false |- _ => rewrite Hv; clear Hv end.
  reflexivity.
Qed.

(** X4. With no optional flag set, the update request is the fetched
    endpoint sent back field by field, with the new name equal to the
    current name: no field is reset to a zero value. *)
Theorem update_without_flags_resubmits_endpoint c (w : gcs.World (S := S)) i r :
  noOptionalSet c = true ->
  In (fastly.CallUpdateGCS i r) (gcs.issued (gcs.Exec Success c) w) ->
  exists g,
    gcs.issued (gcs.Exec Success c) w
    = [fastly.CallGetGCS (getRequest c) (inr g); fastly.CallUpdateGCS i r]
    /\ i = resubmit g.
Proof.
  intros Hnone Hin.
  destruct (Exec_call_shapes Success c w) as [H | [(r0 & H) | (g & r0 & H)]];
    rewrite H in *; simpl in Hin.
  - contradiction.
  - destruct Hin as [Heq | []]. discriminate.
  - destruct Hin as [Heq | [Heq | []]]; [discriminate |].
    inversion Heq; subst. exists g.
    split; [reflexivity | apply noOptionalSet_resubmit; exact Hnone].
Qed.

End Further.

(** ** What parsing stores *)

Section ParseFacts.

Variable C : Type.
Variable flags : list (kingpin.FlagClause C).
Implicit Types (f : kingpin.FlagClause C) (c : C)
  (elements : list (kingpin.FlagClause C * kingpin.Setting)).

Abbreviation registered := (resolved_from flags).

Lemma resolve_registered args elements :
  kingpin.resolve flags args = inr elements -> registered elements.
Proof.
  revert elements. induction args as [ | [n v] args IH]; simpl; intros elements H.
  - inversion H. constructor.
  - destruct (find (kingpin.matches n) flags) as [f | ] eqn:Hfind; [| discriminate].
    destruct (kingpin.resolve flags args) as [e | els]; [discriminate |].
    inversion H; subst. constructor; [| apply IH; reflexivity].
    simpl. apply (find_some _ _ Hfind).
Qed.

(** Each argument of a command line that resolves has its element. *)
Lemma resolve_args args elements n v :
  kingpin.resolve flags args = inr elements -> In (n, v) args ->
  exists f, find (kingpin.matches n) flags = Some f /\ In (f, v) elements.
Proof.
  revert elements. induction args as [ | [n0 v0] args IH]; simpl; intros elements H Hin.
  - contradiction.
  - destruct (find (kingpin.matches n0) flags) as [f0 | ] eqn:Hfind; [| discriminate].
    destruct (kingpin.resolve flags args) as [e | els]; [discriminate |].
    inversion H; subst. destruct Hin as [Heq | Hin].
    + inversion Heq; subst. exists f0. simpl. auto.
    + destruct (IH els eq_refl Hin) as (f & Hf & Hel). exists f. simpl. auto.
Qed.

(** When [r] tells which names resolve to the flag [x], the elements hold
    that flag exactly when the command line names it. *)
Lemma tagged_resolve (x : string) (r : kingpin.FlagName -> bool) args elements :
  (forall n f, find (kingpin.matches n) flags = Some f ->
               (kingpin.name f =? x) = r n) ->
  kingpin.resolve flags args = inr elements ->
  tagged x elements = existsb (fun a => r (fst a)) args.
Proof.
  intros Hr. revert elements.
  induction args as [ | [n v] args IH]; simpl; intros elements H.
  - inversion H. reflexivity.
  - destruct (find (kingpin.matches n) flags) as [f | ] eqn:Hfind; [| discriminate].
    destruct (kingpin.resolve flags args) as [e | els]; [discriminate |].
    inversion H; subst. simpl. rewrite (Hr _ _ Hfind), (IH els eq_refl).
    reflexivity.
Qed.

(** *** Invariants *)

Section Invariant.

Variable I : C -> Prop.
Hypothesis value_keeps :
  forall f, In f flags ->
  forall v c c', kingpin.value f v c = Some c' -> I c -> I c'.
Hypothesis action_keeps :
  forall f, In f flags -> forall c, I c -> I (kingpin.action f c).

Lemma setValues_invariant elements seen c c' :
  registered elements ->
  kingpin.setValues elements seen c = inr c' -> I c -> I c'.
Proof.
  intros Hreg. revert seen c.
  induction Hreg as [ | [f v] els Hf Hreg IH]; simpl; intros seen c H Hc.
  - inversion H; subst. exact Hc.
  - destruct (existsb (String.eqb (kingpin.name f)) seen); [discriminate |].
    destruct (kingpin.value f v c) as [c1 | ] eqn:Hval; [| discriminate].
    eapply IH; [exact H |]. eapply value_keeps; eauto.
Qed.

Lemma applyActions_invariant elements c :
  registered elements -> I c -> I (kingpin.applyActions elements c).
Proof.
  unfold kingpin.applyActions. intros Hreg. revert c.
  induction Hreg as [ | [f v] els Hf Hreg IH]; simpl; intros c Hc.
  - exact Hc.
  - apply IH. apply action_keeps; assumption.
Qed.

(** A property every flag keeps holds of the parsed command if it held of
    the initial one. *)
Lemma Parse_invariant args c c' :
  kingpin.Parse flags args c = inr c' -> I c -> I c'.
Proof.
  unfold kingpin.Parse. intros H Hc.
  destruct (kingpin.resolve flags args) as [e | elements] eqn:Hres; [discriminate |].
  destruct (kingpin.setValues elements [] c) as [e | c1] eqn:Hset; [discriminate |].
  destruct (kingpin.validateRequired flags elements); [discriminate |].
  inversion H; subst.
  pose proof (resolve_registered _ Hres) as Hreg.
  apply applyActions_invariant; [exact Hreg |].
  eapply setValues_invariant; eauto.
Qed.

End Invariant.

(** *** The presence bit of a flag *)

Section Presence.

Variables (x : string) (pv : C -> bool).
Hypothesis value_keeps :
  forall f, In f flags ->
  forall v c c', kingpin.value f v c = Some c' -> pv c' = pv c.
Hypothesis action_raises :
  forall f, In f flags ->
  forall c, pv (kingpin.action f c) = (kingpin.name f =? x) || pv c.

Lemma applyActions_presence elements c :
  registered elements ->
  pv (kingpin.applyActions elements c) = tagged x elements || pv c.
Proof.
  unfold kingpin.applyActions, tagged. intros Hreg. revert c.
  induction Hreg as [ | [f v] els Hf Hreg IH]; simpl; intros c.
  - reflexivity.
  - rewrite IH, (action_raises _ Hf). simpl.
    destruct (kingpin.name f =? x), (existsb _ els), (pv c); reflexivity.
Qed.

Lemma Parse_presence args elements c c' :
  kingpin.resolve flags args = inr elements ->
  kingpin.Parse flags args c = inr c' ->
  pv c' = tagged x elements || pv c.
Proof.
  unfold kingpin.Parse. intros Hres H. rewrite Hres in H.
  destruct (kingpin.setValues elements [] c) as [e | c1] eqn:Hset; [discriminate |].
  destruct (kingpin.validateRequired flags elements); [discriminate |].
  inversion H; subst.
  pose proof (resolve_registered _ Hres) as Hreg.
  rewrite (applyActions_presence _ Hreg). f_equal.
  eapply setValues_invariant with (I := fun c0 => pv c0 = pv c);
    [| exact Hreg | exact Hset | reflexivity].
  intros f Hf v c0 c0' Hv Hc. rewrite <- Hc. eapply value_keeps; eassumption.
Qed.

End Presence.

(** *** The value of a flag *)

Section Stored.

Variables (A : Type) (x : string) (pa : C -> A).
Variable stores : kingpin.Setting -> A -> Prop.
Hypothesis other_keeps :
  forall f, In f flags -> kingpin.name f <> x ->
  forall v c c', kingpin.value f v c = Some c' -> pa c' = pa c.
Hypothesis own_stores :
  forall f, In f flags -> kingpin.name f = x ->
  forall v c c', kingpin.value f v c = Some c' -> stores v (pa c').
Hypothesis action_keeps :
  forall f, In f flags -> forall c, pa (kingpin.action f c) = pa c.

Lemma setValues_after elements seen c c' :
  registered elements ->
  kingpin.setValues elements seen c = inr c' ->
  existsb (String.eqb x) seen = true -> pa c' = pa c.
Proof.
  intros Hreg. revert seen c.
  induction Hreg as [ | [f v] els Hf Hreg IH]; simpl; intros seen c H Hseen.
  - inversion H; subst. reflexivity.
  - destruct (existsb (String.eqb (kingpin.name f)) seen) eqn:Hrep; [discriminate |].
    destruct (kingpin.value f v c) as [c1 | ] eqn:Hval; [| discriminate].
    assert (Hne : kingpin.name f <> x).
    { intros Heq. rewrite Heq, Hseen in Hrep. discriminate. }
    rewrite (IH _ _ H); [eapply other_keeps; eassumption |].
    simpl. rewrite Hseen. apply orb_true_r.
Qed.

Lemma setValues_absent elements seen c c' :
  registered elements ->
  kingpin.setValues elements seen c = inr c' ->
  tagged x elements = false -> pa c' = pa c.
Proof.
  unfold tagged. intros Hreg. revert seen c.
  induction Hreg as [ | [f v] els Hf Hreg IH]; simpl; intros seen c H Htag.
  - inversion H; subst. reflexivity.
  - destruct (existsb (String.eqb (kingpin.name f)) seen); [discriminate |].
    destruct (kingpin.value f v c) as [c1 | ] eqn:Hval; [| discriminate].
    apply orb_false_elim in Htag. destruct Htag as [Hne Htag].
    apply String.eqb_neq in Hne.
    rewrite (IH _ _ H Htag). eapply other_keeps; eassumption.
Qed.

Lemma setValues_stored elements seen c c' f v :
  registered elements ->
  kingpin.setValues elements seen c = inr c' ->
  In (f, v) elements -> kingpin.name f = x -> stores v (pa c').
Proof.
  intros Hreg. revert seen c.
  induction Hreg as [ | [f0 v0] els Hf Hreg IH]; simpl; intros seen c H Hin Hname.
  - contradiction.
  - destruct (existsb (String.eqb (kingpin.name f0)) seen); [discriminate |].
    destruct (kingpin.value f0 v0 c) as [c1 | ] eqn:Hval; [| discriminate].
    destruct Hin as [Heq | Hin]; [| exact (IH _ _ H Hin Hname)].
    inversion Heq; subst f0 v0.
    assert (Hkept : pa c' = pa c1).
    { eapply setValues_after; [exact Hreg | exact H |].
      simpl. rewrite Hname, String.eqb_refl. reflexivity. }
    rewrite Hkept. eapply own_stores; eassumption.
Qed.

(** The value observed by [pa] in the parsed command is the one given with
    the flag [x], and the initial one when the flag was not given. *)
Lemma Parse_stored args elements c c' :
  kingpin.resolve flags args = inr elements ->
  kingpin.Parse flags args c = inr c' ->
  (forall f v, In (f, v) elements -> kingpin.name f = x -> stores v (pa c'))
  /\ (tagged x elements = false -> pa c' = pa c).
Proof.
  unfold kingpin.Parse. intros Hres H. rewrite Hres in H.
  destruct (kingpin.setValues elements [] c) as [e | c1] eqn:Hset; [discriminate |].
  destruct (kingpin.validateRequired flags elements); [discriminate |].
  inversion H; subst.
  pose proof (resolve_registered _ Hres) as Hreg.
  assert (Hact : pa (kingpin.applyActions elements c1) = pa c1).
  { eapply applyActions_invariant with (I := fun c0 => pa c0 = pa c1);
      [| exact Hreg | reflexivity].
    intros f Hf c0 Hc0. rewrite <- Hc0. apply action_keeps. exact Hf. }
  rewrite Hact. split.
  - intros f v Hin Hname. eapply setValues_stored; eassumption.
  - intros Htag. eapply setValues_absent; eassumption.
Qed.

End Stored.

End ParseFacts.

(** ** The flags of the update command *)

Section CommandLine.

Context {conv : kingpin.Strconv}.

(** The names that resolve to a flag of the update command are the ones
    [refers] lists. *)
Lemma NewUpdateCommand_resolves file n f x :
  find (kingpin.matches n) (snd (gcs.NewUpdateCommand file)) = Some f ->
  (kingpin.name f =? x) = refers n x.
Proof.
  intros H. destruct n as [l | ch]; unfold_flags H; cbv [refers].
  - repeat match type of H with
      | (if ?a =? ?s then _ else _) = _ =>
          destruct (String.eqb_spec a s);
          [ inversion H; subst; reflexivity | ]
      end.
    discriminate.
  - repeat match type of H with
      | (if Ascii.eqb ?a ?b then _ else _) = _ =>
          destruct (Ascii.eqb_spec a b);
          [ inversion H; subst; reflexivity | ]
      end.
    discriminate.
Qed.

(** Case analysis over the registered flags. *)
Ltac by_flag :=
  let f := fresh "f" in
  let Hin := fresh "Hin" in
  intros f Hin; unfold_flags Hin; cbv [In] in Hin;
  repeat (destruct Hin as [Hin | Hin]; [subst f | ]);
  [ .. | contradiction ];
  cbv [kingpin.name kingpin.value kingpin.action];
  intros;
  repeat match goal with
    | H : context [match ?v with _ => _ end] |- _ =>
        destruct v eqn:?; try discriminate H
    | H : Some _ = Some _ |- _ => inversion H; subst; clear H
    end;
  try reflexivity; try congruence; try (simpl; assumption);
  try (eexists; split; [reflexivity | simpl; eassumption]).

Section CommandFlags.

Variable file : manifest.File.

Abbreviation flags := (snd (gcs.NewUpdateCommand file)).
Abbreviation zero := (fst (gcs.NewUpdateCommand file)).

Lemma parseArgs_elements args c :
  parseArgs file args = inr c ->
  exists elements, kingpin.resolve flags args = inr elements.
Proof.
  unfold parseArgs, kingpin.Parse. intros H.
  destruct (kingpin.resolve flags args) as [e | elements]; [discriminate |].
  exists elements. reflexivity.
Qed.

Lemma tagged_givenFlag x args elements :
  kingpin.resolve flags args = inr elements ->
  tagged x elements = givenFlag x args.
Proof.
  intros H. unfold givenFlag.
  apply (@tagged_resolve _ flags x (fun n => refers n x)); [| exact H].
  intros n f Hfind. exact (@NewUpdateCommand_resolves file n f x Hfind).
Qed.

(** A value the flags store and no action touches, read from a command
    line that parses; [stores s a] says that the setting [s] is stored as
    [a]. *)
Lemma parsed_value {A} (x : string) (pa : gcs.UpdateCommand -> A)
  (stores : kingpin.Setting -> A -> Prop) args c :
  (forall f, In f flags -> kingpin.name f <> x ->
   forall v c0 c1, kingpin.value f v c0 = Some c1 -> pa c1 = pa c0) ->
  (forall f, In f flags -> kingpin.name f = x ->
   forall v c0 c1, kingpin.value f v c0 = Some c1 -> stores v (pa c1)) ->
  (forall f, In f flags -> forall c0, pa (kingpin.action f c0) = pa c0) ->
  parseArgs file args = inr c ->
  (forall n s, In (n, s) args -> refers n x = true -> stores s (pa c))
  /\ (givenFlag x args = false -> pa c = pa zero).
Proof.
  intros Hother Hown Hact H.
  destruct (@parseArgs_elements args c H) as [elements Hres].
  destruct (@Parse_stored _ flags _ x pa stores Hother Hown Hact args elements
              zero c Hres H) as [Hst Habs].
  rewrite (@tagged_givenFlag x args elements Hres) in Habs.
  split; [| exact Habs].
  intros n s Hin Hrefers.
  destruct (@resolve_args _ flags args elements n s Hres Hin) as (f & Hfind & Hel).
  apply (Hst f s Hel).
  apply String.eqb_eq. rewrite (@NewUpdateCommand_resolves file n f x Hfind).
  exact Hrefers.
Qed.

(** An optional wrapper whose flag stores the value and raises the bit,
    read from a command line that parses. *)
Lemma parsed_optional {A} (x : string) (po : gcs.UpdateCommand -> Optional A)
  (inj : A -> kingpin.Setting) args c :
  (forall f, In f flags ->
   forall v c0 c1, kingpin.value f v c0 = Some c1 ->
                   Valid (po c1) = Valid (po c0)) ->
  (forall f, In f flags ->
   forall c0, Valid (po (kingpin.action f c0))
              = (kingpin.name f =? x) || Valid (po c0)) ->
  (forall f, In f flags -> kingpin.name f <> x ->
   forall v c0 c1, kingpin.value f v c0 = Some c1 ->
                   Value (po c1) = Value (po c0)) ->
  (forall f, In f flags -> kingpin.name f = x ->
   forall v c0 c1, kingpin.value f v c0 = Some c1 -> v = inj (Value (po c1))) ->
  (forall f, In f flags ->
   forall c0, Value (po (kingpin.action f c0)) = Value (po c0)) ->
  Valid (po zero) = false ->
  parseArgs file args = inr c ->
  parsedFlag inj (Value (po zero)) x args (po c).
Proof.
  intros Hbit Hraise Hother Hown Hact Hzero H.
  destruct (@parseArgs_elements args c H) as [elements Hres].
  destruct (@parsed_value _ x (fun c0 => Value (po c0))
              (fun v a => v = inj a) args c Hother Hown Hact H) as [Hst Habs].
  unfold parsedFlag. split; [| split; assumption].
  rewrite (@Parse_presence _ flags x (fun c0 => Valid (po c0)) Hbit Hraise
             args elements zero c Hres H).
  rewrite Hzero, orb_false_r. exact (@tagged_givenFlag x args elements Hres).
Qed.

End CommandFlags.

(** The hypotheses of [parsed_optional], flag by flag. *)
Ltac optional_flag file po :=
  eapply (@parsed_optional file _ _ po);
  [ by_flag | by_flag | by_flag | by_flag | by_flag | reflexivity | assumption ].

(** X5. On a command line that parses, each of the thirteen optional
    wrappers is marked present exactly when its flag was given, holds the
    value given with the flag, and holds the zero value when the flag was
    not given: a flag given with an empty or zero value is still present. *)
Theorem parse_marks_given_optionals file args c :
  parseArgs file args = inr c -> parsedOptionals args c.
Proof.
  intros H. unfold parsedOptionals.
  repeat match goal with |- _ /\ _ => split end.
  - optional_flag file gcs.NewName.
  - optional_flag file gcs.Bucket.
  - optional_flag file gcs.User.
  - optional_flag file gcs.SecretKey.
  - optional_flag file gcs.Path.
  - optional_flag file gcs.Period.
  - optional_flag file gcs.FormatVersion.
  - optional_flag file gcs.GzipLevel.
  - optional_flag file gcs.Format.
  - optional_flag file gcs.ResponseCondition.
  - optional_flag file gcs.TimestampFormat.
  - optional_flag file gcs.MessageType.
  - optional_flag file gcs.Placement.
Qed.

Lemma givenFlag_In x args n s :
  In (n, s) args -> refers n x = true -> givenFlag x args = true.
Proof.
  intros Hin Hr. unfold givenFlag. apply existsb_exists. exists (n, s). auto.
Qed.

(** A required flag is on every command line that parses. *)
Lemma required_given file args c f :
  parseArgs file args = inr c ->
  In f (snd (gcs.NewUpdateCommand file)) -> kingpin.required f = true ->
  givenFlag (kingpin.name f) args = true.
Proof.
  intros H Hin Hreq.
  destruct (Parse_required _ _ _ f H Hin Hreq) as (n & v & f' & Hargs & Hfind & Hname).
  apply (givenFlag_In _ _ n v Hargs).
  rewrite <- (@NewUpdateCommand_resolves file n f' (kingpin.name f) Hfind).
  apply String.eqb_eq. exact Hname.
Qed.

(** Where [--service-id] goes: into the flag part of the manifest, the file
    part staying as it was read. *)
Lemma parsed_service_id file args c :
  parseArgs file args = inr c ->
  (forall n s, In (n, s) args -> refers n "service-id" = true ->
               s = kingpin.StringValue (flagServiceID c))
  /\ (givenFlag "service-id" args = false -> flagServiceID c = EmptyString)
  /\ manifest.file (gcs.manifest c) = file.
Proof.
  intros H.
  assert (Hsid : (forall n s, In (n, s) args -> refers n "service-id" = true ->
                              s = kingpin.StringValue (flagServiceID c))
                 /\ (givenFlag "service-id" args = false ->
                     flagServiceID c = flagServiceID (fst (gcs.NewUpdateCommand file)))).
  { eapply (@parsed_value file _ "service-id" flagServiceID
              (fun s a => s = kingpin.StringValue a));
      [by_flag | by_flag | by_flag | exact H]. }
  destruct Hsid as [Hgiven Habsent].
  split; [exact Hgiven |]. split; [exact Habsent |].
  apply (@Parse_invariant _ (snd (gcs.NewUpdateCommand file))
           (fun c0 => manifest.file (gcs.manifest c0) = file))
    with (args := args) (c := fst (gcs.NewUpdateCommand file));
    [by_flag | by_flag | exact H | reflexivity].
Qed.

(** X6. On a command line that parses, [--version] and [--name] (or [-n])
    were both given; the command's [EndpointName] is the value given with
    [--name], and its [Version] is what the library's int conversion makes
    of the text given with [--version] (which need not be the number
    written); the flag part of the manifest holds the value given with
    [--service-id] (or [-s]) and is empty when that flag was not given; and
    the file part of the manifest is still the file read when the command
    was created. *)
Theorem parse_stores_identifying_flags file args c :
  parseArgs file args = inr c ->
  givenFlag "version" args = true
  /\ givenFlag "name" args = true
  /\ (forall n s, In (n, s) args -> refers n "version" = true ->
                  storedInt s (gcs.Version c))
  /\ (forall n s, In (n, s) args -> refers n "name" = true ->
                  s = kingpin.StringValue (gcs.EndpointName c))
  /\ (forall n s, In (n, s) args -> refers n "service-id" = true ->
                  s = kingpin.StringValue (flagServiceID c))
  /\ (givenFlag "service-id" args = false -> flagServiceID c = EmptyString)
  /\ manifest.file (gcs.manifest c) = file.
Proof.
  intros H.
  split.
  { apply (@required_given file args c
             (kingpin.IntVar gcs.set_Version
                (kingpin.Required (kingpin.Flag "version"))) H);
      [simpl; auto | reflexivity]. }
  split.
  { apply (@required_given file args c
             (kingpin.StringVar gcs.set_EndpointName
                (kingpin.Required (kingpin.Short "n" (kingpin.Flag "name")))) H);
      [simpl; auto 6 | reflexivity]. }
  split.
  { eapply (@parsed_value file _ "version" gcs.Version storedInt);
      [by_flag | by_flag | by_flag | exact H]. }
  split.
  { eapply (@parsed_value file _ "name" gcs.EndpointName
              (fun s a => s = kingpin.StringValue a));
      [by_flag | by_flag | by_flag | exact H]. }
  destruct (@parsed_service_id file args c H) as (Hgiven & Habsent & Hfile).
  auto.
Qed.

Lemma resolve_renamed {C} (flags : list (kingpin.FlagClause C))
  (g : kingpin.FlagName -> kingpin.FlagName) args :
  (forall n, find (kingpin.matches (g n)) flags = find (kingpin.matches n) flags) ->
  kingpin.resolve flags (map (fun a => (g (fst a), snd a)) args)
  = kingpin.resolve flags args.
Proof.
  intros Hg. induction args as [ | [n v] args IH]; simpl; [reflexivity |].
  rewrite Hg, IH. reflexivity.
Qed.

Lemma find_longForm file n :
  find (kingpin.matches (longForm n)) (snd (gcs.NewUpdateCommand file))
  = find (kingpin.matches n) (snd (gcs.NewUpdateCommand file)).
Proof.
  destruct n as [l | ch]; [reflexivity |].
  unfold longForm.
  destruct (Ascii.eqb_spec ch "s") as [-> | Hs]; [reflexivity |].
  destruct (Ascii.eqb_spec ch "n") as [-> | Hn]; reflexivity.
Qed.

(** X8. The short names are interchangeable with the long ones: a command
    line parses to a command exactly when the command line with [-s]
    written as [--service-id] and [-n] as [--name] parses to that same
    command (so the two parse or fail together; which error a failing
    parse reports is not part of the statement). *)
Theorem short_names_parse_as_long_names file args c :
  parseArgs file (map (fun a => (longForm (fst a), snd a)) args) = inr c
  <-> parseArgs file args = inr c.
Proof.
  assert (Hsame : parseArgs file (map (fun a => (longForm (fst a), snd a)) args)
                  = parseArgs file args).
  { unfold parseArgs, kingpin.Parse.
    rewrite (resolve_renamed _ longForm args (find_longForm file)).
    reflexivity. }
  rewrite Hsame. split; auto.
Qed.

Lemma requested_of_parsed {A} (inj : A -> kingpin.Setting) (zero : A) x args
  (o : Optional A) (fetched : A) :
  parsedFlag inj zero x args o ->
  requestedFlag inj x args fetched (if Valid o then Value o else fetched).
Proof.
  intros (Hbit & Hstored & _). split.
  - intros n s Hin Hr. rewrite Hbit, (givenFlag_In _ _ n s Hin Hr).
    exact (Hstored n s Hin Hr).
  - intros Habsent. rewrite Hbit, Habsent. reflexivity.
Qed.

Ltac requested_flag file po :=
  eapply requested_of_parsed; optional_flag file po.

Section EndToEnd.

Context {S : Type} {client : fastly.Client S}.
Variable Success : Writer -> string -> list Arg -> Writer.

(** X9. From the command line to the wire: for the command a command line
    parses to, each of the thirteen optional fields of the [UpdateGCS]
    request is the value given with its flag when the flag is on the
    command line, and the value of the fetched endpoint when it is not. *)
Theorem given_flags_reach_the_update_request
  file args c (w : gcs.World (S := S)) i r :
  parseArgs file args = inr c ->
  In (fastly.CallUpdateGCS i r) (gcs.issued (gcs.Exec Success c) w) ->
  exists g,
    gcs.issued (gcs.Exec Success c) w
    = [fastly.CallGetGCS (getRequest c) (inr g); fastly.CallUpdateGCS i r]
    /\ requestedInput args g i.
Proof.
  intros H Hin.
  destruct (Exec_call_shapes Success c w) as [Hc | [(r0 & Hc) | (g & r0 & Hc)]];
    rewrite Hc in *; simpl in Hin.
  - contradiction.
  - destruct Hin as [Heq | []]. discriminate.
  - destruct Hin as [Heq | [Heq | []]]; [discriminate |].
    inversion Heq; subst. exists g. split; [reflexivity |].
    unfold requestedInput.
    rewrite merge_NewName, merge_Bucket, merge_User, merge_SecretKey, merge_Path,
      merge_Period, merge_FormatVersion, merge_GzipLevel, merge_Format,
      merge_ResponseCondition, merge_TimestampFormat, merge_MessageType,
      merge_Placement.
    repeat match goal with |- _ /\ _ => split end.
    + requested_flag file gcs.NewName.
    + requested_flag file gcs.Bucket.
    + requested_flag file gcs.User.
    + requested_flag file gcs.SecretKey.
    + requested_flag file gcs.Path.
    + requested_flag file gcs.Period.
    + requested_flag file gcs.FormatVersion.
    + requested_flag file gcs.GzipLevel.
    + requested_flag file gcs.Format.
    + requested_flag file gcs.ResponseCondition.
    + requested_flag file gcs.TimestampFormat.
    + requested_flag file gcs.MessageType.
    + requested_flag file gcs.Placement.
Qed.

(** X10. The [GetGCS] request of an invocation names the endpoint the
    command line names: its name is the value given with [--name] (or
    [-n]), and its version is what the library's int conversion makes of
    the text given with [--version]. *)
Theorem fetch_request_carries_given_name_and_version
  file args c (w : gcs.World (S := S)) i r :
  parseArgs file args = inr c ->
  In (fastly.CallGetGCS i r) (gcs.issued (gcs.Exec Success c) w) ->
  (forall n s, In (n, s) args -> refers n "name" = true ->
               s = kingpin.StringValue (fastly.Get_Name i))
  /\ (forall n s, In (n, s) args -> refers n "version" = true ->
                  storedInt s (fastly.Get_Version i)).
Proof.
  intros H Hin.
  assert (Hreq : i = getRequest c).
  { destruct (Exec_call_shapes Success c w) as [Hc | [(r0 & Hc) | (g & r0 & Hc)]];
      rewrite Hc in Hin; simpl in Hin.
    - contradiction.
    - destruct Hin as [Heq | []]. inversion Heq. reflexivity.
    - destruct Hin as [Heq | [Heq | []]]; [| discriminate].
      inversion Heq. reflexivity. }
  subst i. simpl. split.
  - eapply (@parsed_value file _ "name" gcs.EndpointName
              (fun s a => s = kingpin.StringValue a));
      [by_flag | by_flag | by_flag | exact H].
  - eapply (@parsed_value file _ "version" gcs.Version storedInt);
      [by_flag | by_flag | by_flag | exact H].
Qed.

(** C7 (amended). From the command line to the request: the service ID
    placed in the [GetGCS] request is the value given with [--service-id]
    (or [-s]) when that value is not empty; when the flag is absent or its
    value empty, it is the service ID of the manifest file, if the file
    has one; and resolution fails, with [ErrNoServiceID] and no request,
    exactly when neither gives a non-empty ID. *)
Theorem service_id_from_command_line_then_manifest
  file args c (w : gcs.World (S := S)) :
  parseArgs file args = inr c ->
  (forall n v, In (n, kingpin.StringValue v) args ->
               refers n "service-id" = true -> v <> EmptyString ->
     exists r,
       gcs.issued (gcs.createInput c) w
       = [fastly.CallGetGCS
            (fastly.mkGetGCSInput v (gcs.EndpointName c) (gcs.Version c)) r])
  /\ (noServiceIDGiven args -> manifest.File_ServiceID file <> EmptyString ->
      exists r,
        gcs.issued (gcs.createInput c) w
        = [fastly.CallGetGCS
             (fastly.mkGetGCSInput (manifest.File_ServiceID file)
                (gcs.EndpointName c) (gcs.Version c)) r])
  /\ (snd (manifest.ServiceID (gcs.manifest c)) = manifest.SourceUndefined <->
      noServiceIDGiven args /\ manifest.File_ServiceID file = EmptyString)
  /\ (noServiceIDGiven args -> manifest.File_ServiceID file = EmptyString ->
      gcs.createInput c w = (inl ErrNoServiceID, w)
      /\ gcs.issued (gcs.createInput c) w = []).
Proof.
  intros H.
  destruct (@parsed_service_id file args c H) as (Hgiven & Habsent & Hfile).
  assert (Hnone : noServiceIDGiven args <-> flagServiceID c = EmptyString).
  { unfold noServiceIDGiven. split.
    - intros Hall. destruct (givenFlag "service-id" args) eqn:Hg;
        [| exact (Habsent eq_refl)].
      unfold givenFlag in Hg. apply existsb_exists in Hg.
      destruct Hg as ([n s] & Hin & Hr). simpl in Hr.
      pose proof (Hgiven n s Hin Hr) as Hs. subst s.
      exact (Hall n _ Hin Hr).
    - intros Hempty n v Hin Hr.
      pose proof (Hgiven n _ Hin Hr) as Hs. inversion Hs. congruence. }
  assert (Hfileid : fileServiceID c = manifest.File_ServiceID file)
    by (unfold fileServiceID; rewrite Hfile; reflexivity).
  destruct (createInput_service_id c w) as [Hundef Hcases].
  rewrite Hnone, <- Hfileid.
  split; [| split; [| split; [exact Hundef |]]].
  - intros n v Hin Hr Hne.
    pose proof (Hgiven n _ Hin Hr) as Hs. inversion Hs as [Hv].
    rewrite Hv in Hne. apply String.eqb_neq in Hne.
    rewrite Hne in Hcases. exact Hcases.
  - intros Hempty Hne. apply String.eqb_neq in Hne. apply String.eqb_eq in Hempty.
    rewrite Hempty, Hne in Hcases. exact Hcases.
  - intros Hempty Hfe. apply String.eqb_eq in Hempty. apply String.eqb_eq in Hfe.
    rewrite Hempty, Hfe in Hcases. exact Hcases.
Qed.

End EndToEnd.

End CommandLine.

(** ** The further properties at work on the mock *)

Lemma Exec_error_writes_nothing_witness :
  fst (gcs.Exec text.Success mock.rename_cmd (mock.world true))
  = inl (APIError "409 Conflict")
  /\ gcs.out (snd (gcs.Exec text.Success mock.rename_cmd (mock.world true)))
     = gcs.out (mock.world true).
Proof.
  split; [reflexivity |].
  apply (Exec_error_writes_nothing text.Success mock.rename_cmd (mock.world true)
           (e := APIError "409 Conflict")).
  reflexivity.
Defined.

Lemma update_request_addresses_fetched_endpoint_witness :
  In (fastly.CallUpdateGCS mock.rename_input (inr mock.renamed))
    (gcs.issued (gcs.Exec text.Success mock.rename_cmd) (mock.world false))
  /\ exists g,
       gcs.issued (gcs.Exec text.Success mock.rename_cmd) (mock.world false)
       = [fastly.CallGetGCS (getRequest mock.rename_cmd) (inr g);
          fastly.CallUpdateGCS mock.rename_input (inr mock.renamed)]
       /\ fastly.Service mock.rename_input = fastly.GCS_ServiceID g
       /\ fastly.Version mock.rename_input = fastly.GCS_Version g
       /\ fastly.Name mock.rename_input = fastly.GCS_Name g.
Proof.
  assert (H : In (fastly.CallUpdateGCS mock.rename_input (inr mock.renamed))
                (gcs.issued (gcs.Exec text.Success mock.rename_cmd)
                   (mock.world false)))
    by (right; left; reflexivity).
  split; [exact H |].
  exact (update_request_addresses_fetched_endpoint text.Success mock.rename_cmd
           (mock.world false) _ _ H).
Defined.

Lemma update_without_flags_resubmits_endpoint_witness :
  noOptionalSet (mock.plain_cmd "svc1" "logs") = true
  /\ In (fastly.CallUpdateGCS mock.plain_input (inr mock.endpoint))
       (gcs.issued (gcs.Exec text.Success (mock.plain_cmd "svc1" "logs"))
          (mock.world false))
  /\ exists g,
       gcs.issued (gcs.Exec text.Success (mock.plain_cmd "svc1" "logs"))
         (mock.world false)
       = [fastly.CallGetGCS (getRequest (mock.plain_cmd "svc1" "logs")) (inr g);
          fastly.CallUpdateGCS mock.plain_input (inr mock.endpoint)]
       /\ mock.plain_input = resubmit g.
Proof.
  assert (H : In (fastly.CallUpdateGCS mock.plain_input (inr mock.endpoint))
                (gcs.issued (gcs.Exec text.Success (mock.plain_cmd "svc1" "logs"))
                   (mock.world false)))
    by (right; left; reflexivity).
  split; [reflexivity |]. split; [exact H |].
  exact (update_without_flags_resubmits_endpoint text.Success
           (mock.plain_cmd "svc1" "logs") (mock.world false) _ _ eq_refl H).
Defined.

Lemma parse_marks_given_optionals_witness :
  @parseArgs mock.strconv (manifest.mkFile EmptyString) mock.rename_args
  = inr mock.rename_cmd
  /\ parsedOptionals mock.rename_args mock.rename_cmd.
Proof.
  split; [reflexivity |].
  apply (@parse_marks_given_optionals mock.strconv (manifest.mkFile EmptyString)
           mock.rename_args mock.rename_cmd).
  reflexivity.
Defined.

Lemma parse_stores_identifying_flags_witness :
  @parseArgs mock.strconv (manifest.mkFile "svc9") mock.rename_args
  = inr (gcs.upd_manifest
           (fun m => manifest.mkData (manifest.mkFile "svc9") (manifest.flag m))
           mock.rename_cmd)
  /\ givenFlag "version" mock.rename_args = true
  /\ givenFlag "name" mock.rename_args = true
  /\ (forall n s, In (n, s) mock.rename_args -> refers n "version" = true ->
                  @storedInt mock.strconv s 3).
Proof.
  split; [reflexivity |].
  destruct (@parse_stores_identifying_flags mock.strconv (manifest.mkFile "svc9")
              mock.rename_args
              (gcs.upd_manifest
                 (fun m => manifest.mkData (manifest.mkFile "svc9")
                             (manifest.flag m))
                 mock.rename_cmd) eq_refl)
    as (Hversion & Hname & Hstored & _).
  split; [assumption |]. split; assumption.
Defined.

Lemma short_names_parse_as_long_names_witness :
  @parseArgs mock.strconv (manifest.mkFile EmptyString)
    (map (fun a => (longForm (fst a), snd a)) mock.rename_args)
  = inr mock.rename_cmd
  /\ @parseArgs mock.strconv (manifest.mkFile EmptyString) mock.rename_args
     = inr mock.rename_cmd.
Proof.
  split; [reflexivity |].
  apply (@short_names_parse_as_long_names mock.strconv
           (manifest.mkFile EmptyString) mock.rename_args mock.rename_cmd).
  reflexivity.
Defined.

Lemma given_flags_reach_the_update_request_witness :
  @parseArgs mock.strconv (manifest.mkFile EmptyString) mock.rename_args
  = inr mock.rename_cmd
  /\ In (fastly.CallUpdateGCS mock.rename_input (inr mock.renamed))
       (gcs.issued (gcs.Exec text.Success mock.rename_cmd) (mock.world false))
  /\ exists g,
       gcs.issued (gcs.Exec text.Success mock.rename_cmd) (mock.world false)
       = [fastly.CallGetGCS (getRequest mock.rename_cmd) (inr g);
          fastly.CallUpdateGCS mock.rename_input (inr mock.renamed)]
       /\ requestedInput mock.rename_args g mock.rename_input.
Proof.
  assert (H : In (fastly.CallUpdateGCS mock.rename_input (inr mock.renamed))
                (gcs.issued (gcs.Exec text.Success mock.rename_cmd)
                   (mock.world false)))
    by (right; left; reflexivity).
  split; [reflexivity |]. split; [exact H |].
  exact (@given_flags_reach_the_update_request mock.strconv _ _ text.Success
           (manifest.mkFile EmptyString) mock.rename_args mock.rename_cmd
           (mock.world false) _ _ eq_refl H).
Defined.

Lemma fetch_request_carries_given_name_and_version_witness :
  @parseArgs mock.strconv (manifest.mkFile EmptyString) mock.rename_args
  = inr mock.rename_cmd
  /\ In (fastly.CallGetGCS (fastly.mkGetGCSInput "svc1" "logs" 3)
           (inr mock.endpoint))
       (gcs.issued (gcs.Exec text.Success mock.rename_cmd) (mock.world false))
  /\ (forall n s, In (n, s) mock.rename_args -> refers n "name" = true ->
                  s = kingpin.StringValue "logs")
  /\ (forall n s, In (n, s) mock.rename_args -> refers n "version" = true ->
                  @storedInt mock.strconv s 3).
Proof.
  assert (H : In (fastly.CallGetGCS (fastly.mkGetGCSInput "svc1" "logs" 3)
                    (inr mock.endpoint))
                (gcs.issued (gcs.Exec text.Success mock.rename_cmd)
                   (mock.world false)))
    by (left; reflexivity).
  split; [reflexivity |]. split; [exact H |].
  exact (@fetch_request_carries_given_name_and_version mock.strconv _ _
           text.Success (manifest.mkFile EmptyString) mock.rename_args
           mock.rename_cmd (mock.world false) _ _ eq_refl H).
Defined.

(** ** The service ID on the mock *)

(** C7, as stated, fails: the claim is that the request carries the value
    of [--service-id] when one was passed, but the flag is bound to a
    plain string with no presence bit, so a flag passed with an empty
    value parses to the same command as no flag at all, and the request
    carries the service ID of the manifest file. *)
Lemma empty_service_id_flag_yields_to_manifest :
  In (kingpin.Long "service-id", kingpin.StringValue EmptyString)
    mock.empty_service_id_args
  /\ @parseArgs mock.strconv (manifest.mkFile "svc1") mock.empty_service_id_args
     = inr (mock.plain_cmd "svc1" "logs")
  /\ @parseArgs mock.strconv (manifest.mkFile "svc1") mock.no_service_id_args
     = inr (mock.plain_cmd "svc1" "logs")
  /\ gcs.issued (gcs.createInput (mock.plain_cmd "svc1" "logs")) (mock.world false)
     = [fastly.CallGetGCS (fastly.mkGetGCSInput "svc1" "logs" 3)
          (inr mock.endpoint)]
  /\ "svc1" <> EmptyString.
Proof.
  split; [left; reflexivity |].
  split; [reflexivity |]. split; [reflexivity |]. split; [reflexivity |].
  discriminate.
Qed.

Lemma service_id_from_command_line_then_manifest_witness :
  @parseArgs mock.strconv (manifest.mkFile "svc9") mock.rename_args
  = inr (gcs.upd_manifest
           (fun m => manifest.mkData (manifest.mkFile "svc9") (manifest.flag m))
           mock.rename_cmd)
  /\ exists r,
       gcs.issued
         (gcs.createInput
            (gcs.upd_manifest
               (fun m => manifest.mkData (manifest.mkFile "svc9")
                           (manifest.flag m))
               mock.rename_cmd))
         (mock.world false)
       = [fastly.CallGetGCS (fastly.mkGetGCSInput "svc1" "logs" 3) r].
Proof.
  split; [reflexivity |].
  destruct (@service_id_from_command_line_then_manifest mock.strconv _ _
              (manifest.mkFile "svc9") mock.rename_args
              (gcs.upd_manifest
                 (fun m => manifest.mkData (manifest.mkFile "svc9")
                             (manifest.flag m))
                 mock.rename_cmd)
              (mock.world false) eq_refl)
    as (Hflag & _).
  apply (Hflag (kingpin.Long "service-id") "svc1");
    [left; reflexivity | reflexivity | discriminate].
Defined.
